(** * HA cluster state machine (src/ha/cluster_state.c)

    A shallow embedding of the failover-arbitration core of the two-node
    HA pair: role bookkeeping, heartbeat liveness, split-brain detection
    and the automatic resolver.

    Conventions of the embedding.
    - The file-static [cluster] object is threaded explicitly through a
      small state-and-trace monad [M].  Calls to the collaborators
      (syslog, virtual IPs, MAC tables, heartbeat transport) are recorded,
      in program order, in the trace.
    - [state_lock] is held for the whole body of every public operation,
      so each operation is one atomic transition of the state; the mutex
      itself is not represented.
    - [uint8_t] and [uint32_t] fields are values of [Z]; no arithmetic is
      performed on them, so no wrap-around is needed.  [time_t] is a count
      of seconds in [Z], on which [difftime] is exact.
    - [char] buffers are lists of bytes of the declared size; the C string
      stored in a buffer is its prefix up to the first NUL. *)

From Stdlib Require Import ZArith List Bool Lia Strings.String Strings.Byte.
Import ListNotations.
Open Scope Z_scope.

(* ================================================================== *)
(** ** C strings in fixed-size buffers *)
(* ================================================================== *)

Module CString.

Definition NUL : byte := x00.

Definition is_nul (c : byte) : bool := Byte.eqb c NUL.

(** Unsigned value of a [char], as [strcmp] compares them. *)
Definition uchar (c : byte) : Z := Z.of_N (Byte.to_N c).

(** The string a [char *] points to: the bytes before the first NUL.
    The end of the list also ends the string. *)
Fixpoint cstr (buf : list byte) : list byte :=
  match buf with
  | [] => []
  | c :: rest => if is_nul c then [] else c :: cstr rest
  end.

Definition strlen (buf : list byte) : nat := List.length (cstr buf).

(** [strncpy(dest, src, n)]: exactly [n] bytes of [dest] are written,
    the first [min n (strlen src)] from [src], the others NUL; the
    bytes of [dest] from index [n] on are left as they were.  No
    terminator is added when [strlen src >= n]. *)
Definition strncpy (dest src : list byte) (n : nat) : list byte :=
  let s := firstn n (cstr src) in
  s ++ repeat NUL (n - List.length s) ++ skipn n dest.

(** [strcmp(a, b)]: walk both strings while the bytes agree and are
    not NUL; the result is the difference of the first pair of bytes
    that differ, read as [unsigned char]. *)
Fixpoint strcmp (a b : list byte) : Z :=
  match a, b with
  | [], [] => 0
  | [], y :: _ => uchar NUL - uchar y
  | x :: _, [] => uchar x - uchar NUL
  | x :: a', y :: b' =>
      if Byte.eqb x y
      then (if is_nul x then 0 else strcmp a' b')
      else uchar x - uchar y
  end.

(** A zero-filled [char buf[n]], as left by [memset] or by an
    initializer that omits the member. *)
Definition zeroed (n : nat) : list byte := repeat NUL n.

End CString.
Import CString.

(* ================================================================== *)
(** ** Constants and data *)
(* ================================================================== *)

(** Cluster roles *)
Definition CLUSTER_ROLE_INIT : Z := 0.
Definition CLUSTER_ROLE_ACTIVE : Z := 1.
Definition CLUSTER_ROLE_STANDBY : Z := 2.
Definition CLUSTER_ROLE_SPLIT : Z := 3.

(** Heartbeat settings *)
Definition HEARTBEAT_INTERVAL_MS : Z := 1000.
Definition HEARTBEAT_TIMEOUT_MS : Z := 3000.
Definition SPLIT_BRAIN_DELAY_MS : Z := 5000.

(** Election priority *)
Definition ELECTION_PRIORITY_SERIAL : Z := 0.
Definition ELECTION_PRIORITY_UPTIME : Z := 1.

(** [sizeof(cluster.local_serial)] and [sizeof(cluster.peer_serial)]. *)
Definition SERIAL_SIZE : nat := 32.

(** [cluster_state_t], without the mutex. *)
Record cluster_state_t : Type := mkCluster {
  local_role : Z;
  peer_role : Z;
  heartbeat_up : bool;
  last_heartbeat_rx : Z;
  last_heartbeat_tx : Z;
  cluster_id : Z;
  local_serial : list byte;
  peer_serial : list byte;
  split_brain_detected : bool;
  auto_recovery_enabled : bool;
  election_policy : Z
}.

(** Modelled from the spec: [heartbeat_msg_t] is declared in heartbeat.h,
    which is not part of the sources.  The members are the four the code
    uses; [sender_serial] is a [char] array whose size matches the
    31-visible-byte bound of the local serial. *)
Record heartbeat_msg_t : Type := mkMsg {
  msg_cluster_id : Z;
  sender_role : Z;
  sender_serial : list byte;
  timestamp : Z
}.

Definition SENDER_SERIAL_SIZE : nat := 32.

(** Modelled from the spec: [cluster_status_t] is declared in
    cluster_state.h, which is not part of the sources.  The members are
    the eight that [cluster_get_status] writes; the two serial members are
    [char] arrays whose size is the length of the list. *)
Record cluster_status_t : Type := mkStatus {
  status_cluster_id : Z;
  status_local_role : Z;
  status_peer_role : Z;
  status_heartbeat_up : bool;
  status_split_brain : bool;
  status_last_heartbeat : Z;
  status_local_serial : list byte;
  status_peer_serial : list byte
}.

(** Field assignments [cluster.f = v]. *)
Definition set_local_role (v : Z) (s : cluster_state_t) : cluster_state_t :=
  mkCluster v (peer_role s) (heartbeat_up s) (last_heartbeat_rx s)
            (last_heartbeat_tx s) (cluster_id s) (local_serial s)
            (peer_serial s) (split_brain_detected s)
            (auto_recovery_enabled s) (election_policy s).

Definition set_peer_role (v : Z) (s : cluster_state_t) : cluster_state_t :=
  mkCluster (local_role s) v (heartbeat_up s) (last_heartbeat_rx s)
            (last_heartbeat_tx s) (cluster_id s) (local_serial s)
            (peer_serial s) (split_brain_detected s)
            (auto_recovery_enabled s) (election_policy s).

Definition set_heartbeat_up (v : bool) (s : cluster_state_t) : cluster_state_t :=
  mkCluster (local_role s) (peer_role s) v (last_heartbeat_rx s)
            (last_heartbeat_tx s) (cluster_id s) (local_serial s)
            (peer_serial s) (split_brain_detected s)
            (auto_recovery_enabled s) (election_policy s).

Definition set_last_heartbeat_rx (v : Z) (s : cluster_state_t) : cluster_state_t :=
  mkCluster (local_role s) (peer_role s) (heartbeat_up s) v
            (last_heartbeat_tx s) (cluster_id s) (local_serial s)
            (peer_serial s) (split_brain_detected s)
            (auto_recovery_enabled s) (election_policy s).

Definition set_last_heartbeat_tx (v : Z) (s : cluster_state_t) : cluster_state_t :=
  mkCluster (local_role s) (peer_role s) (heartbeat_up s)
            (last_heartbeat_rx s) v (cluster_id s) (local_serial s)
            (peer_serial s) (split_brain_detected s)
            (auto_recovery_enabled s) (election_policy s).

Definition set_cluster_id (v : Z) (s : cluster_state_t) : cluster_state_t :=
  mkCluster (local_role s) (peer_role s) (heartbeat_up s)
            (last_heartbeat_rx s) (last_heartbeat_tx s) v (local_serial s)
            (peer_serial s) (split_brain_detected s)
            (auto_recovery_enabled s) (election_policy s).

Definition set_local_serial (v : list byte) (s : cluster_state_t) : cluster_state_t :=
  mkCluster (local_role s) (peer_role s) (heartbeat_up s)
            (last_heartbeat_rx s) (last_heartbeat_tx s) (cluster_id s) v
            (peer_serial s) (split_brain_detected s)
            (auto_recovery_enabled s) (election_policy s).

Definition set_peer_serial (v : list byte) (s : cluster_state_t) : cluster_state_t :=
  mkCluster (local_role s) (peer_role s) (heartbeat_up s)
            (last_heartbeat_rx s) (last_heartbeat_tx s) (cluster_id s)
            (local_serial s) v (split_brain_detected s)
            (auto_recovery_enabled s) (election_policy s).

Definition set_split_brain_detected (v : bool) (s : cluster_state_t) : cluster_state_t :=
  mkCluster (local_role s) (peer_role s) (heartbeat_up s)
            (last_heartbeat_rx s) (last_heartbeat_tx s) (cluster_id s)
            (local_serial s) (peer_serial s) v
            (auto_recovery_enabled s) (election_policy s).

Definition set_auto_recovery_enabled (v : bool) (s : cluster_state_t) : cluster_state_t :=
  mkCluster (local_role s) (peer_role s) (heartbeat_up s)
            (last_heartbeat_rx s) (last_heartbeat_tx s) (cluster_id s)
            (local_serial s) (peer_serial s) (split_brain_detected s)
            v (election_policy s).

Definition set_election_policy (v : Z) (s : cluster_state_t) : cluster_state_t :=
  mkCluster (local_role s) (peer_role s) (heartbeat_up s)
            (last_heartbeat_rx s) (last_heartbeat_tx s) (cluster_id s)
            (local_serial s) (peer_serial s) (split_brain_detected s)
            (auto_recovery_enabled s) v.

(** [memset(&cluster, 0, sizeof(cluster_state_t))]. *)
Definition zero_state : cluster_state_t :=
  mkCluster 0 0 false 0 0 0 (zeroed SERIAL_SIZE) (zeroed SERIAL_SIZE)
            false false 0.

(* ================================================================== *)
(** ** Collaborators and the environment *)
(* ================================================================== *)

Inductive severity : Type := LOG_INFO | LOG_WARNING | LOG_CRIT.

(** One call to a collaborator.  [Syslog] keeps the severity and the
    format string of the call; the variadic arguments are not recorded. *)
Inductive event : Type :=
| Syslog (sev : severity) (fmt : string)
| ActivateVirtualIps
| ActivateMacTables
| ReleaseVirtualIps
| FlushMacTables
| HeartbeatSend (msg : heartbeat_msg_t).

(** What the operations read from outside the state: [time(NULL)],
    [get_system_uptime()] and [get_peer_uptime()]. *)
Record env : Type := mkEnv {
  time_now : Z;
  system_uptime : Z;
  peer_uptime : Z
}.

(** [difftime(t1, t0)], in seconds. *)
Definition difftime (t1 t0 : Z) : Z := t1 - t0.

(* ================================================================== *)
(** ** The state-and-trace monad *)
(* ================================================================== *)

Definition M (A : Type) : Type :=
  cluster_state_t -> A * cluster_state_t * list event.

Definition ret {A : Type} (a : A) : M A := fun s => (a, s, []).

Definition bind {A B : Type} (m : M A) (k : A -> M B) : M B :=
  fun s =>
    let '(a, s1, t1) := m s in
    let '(b, s2, t2) := k a s1 in
    (b, s2, t1 ++ t2).

Definition get : M cluster_state_t := fun s => (s, s, []).

Definition modify (f : cluster_state_t -> cluster_state_t) : M unit :=
  fun s => (tt, f s, []).

Definition emit (e : event) : M unit := fun s => (tt, s, [e]).

Declare Scope cluster_scope.
Delimit Scope cluster_scope with cluster.
Notation "x <- m ;; k" := (bind m (fun x => k))
  (at level 61, m at next level, right associativity) : cluster_scope.
Notation "m ;; k" := (bind m (fun _ => k))
  (at level 61, right associativity) : cluster_scope.
Open Scope cluster_scope.

Definition result_of {A : Type} (r : A * cluster_state_t * list event) : A :=
  fst (fst r).
Definition state_of {A : Type} (r : A * cluster_state_t * list event)
  : cluster_state_t := snd (fst r).
Definition trace_of {A : Type} (r : A * cluster_state_t * list event)
  : list event := snd r.

(* ================================================================== *)
(** ** The operations *)
(* ================================================================== *)

(** [cluster_state_init] *)
Definition cluster_state_init (id : Z) (serial : list byte) : M Z :=
  modify (fun _ => zero_state) ;;
  modify (set_cluster_id id) ;;
  s <- get ;;
  modify (set_local_serial
            (strncpy (local_serial s) serial (SERIAL_SIZE - 1))) ;;
  modify (set_local_role CLUSTER_ROLE_INIT) ;;
  modify (set_peer_role CLUSTER_ROLE_INIT) ;;
  modify (set_heartbeat_up false) ;;
  modify (set_auto_recovery_enabled false) ;;
  modify (set_election_policy ELECTION_PRIORITY_SERIAL) ;;
  emit (Syslog LOG_INFO "Cluster %d initialized. Local serial: %s") ;;
  ret 0.

(** [cluster_auto_resolve_split_brain].  The [switch] has no [default]:
    for any other policy value [should_demote] keeps its initial
    [false]. *)
Definition should_demote (e : env) (s : cluster_state_t) : bool :=
  if election_policy s =? ELECTION_PRIORITY_SERIAL then
    strcmp (local_serial s) (peer_serial s) >? 0
  else if election_policy s =? ELECTION_PRIORITY_UPTIME then
    system_uptime e <? peer_uptime e
  else false.

Definition cluster_auto_resolve_split_brain (e : env) : M Z :=
  emit (Syslog LOG_INFO
          "Cluster: Auto-resolving split-brain using policy: %s") ;;
  s <- get ;;
  (if should_demote e s then
     emit (Syslog LOG_WARNING
        "Cluster: Auto-demoting local node to STANDBY (serial: %s > peer: %s)") ;;
     modify (set_local_role CLUSTER_ROLE_STANDBY) ;;
     emit ReleaseVirtualIps ;;
     emit FlushMacTables ;;
     modify (set_split_brain_detected false)
   else
     emit (Syslog LOG_INFO
        "Cluster: Local node remains ACTIVE (serial: %s <= peer: %s). Waiting for peer to demote.")) ;;
  ret 0.

(** [cluster_heartbeat_tick], in the three blocks of its body. *)

(** Check if heartbeat is alive. *)
Definition tick_liveness (e : env) : M unit :=
  s <- get ;;
  let ms_since_rx := difftime (time_now e) (last_heartbeat_rx s) * 1000 in
  if heartbeat_up s && (ms_since_rx >? HEARTBEAT_TIMEOUT_MS) then
    emit (Syslog LOG_WARNING
            "Cluster: Heartbeat lost (last rx: %.0f ms ago)") ;;
    modify (set_heartbeat_up false) ;;
    s <- get ;;
    if local_role s =? CLUSTER_ROLE_STANDBY then
      emit (Syslog LOG_WARNING
        "Cluster: STANDBY node lost heartbeat. Assuming ACTIVE node failed. Promoting to ACTIVE.") ;;
      modify (set_local_role CLUSTER_ROLE_ACTIVE) ;;
      emit ActivateVirtualIps ;;
      emit ActivateMacTables
    else ret tt
  else ret tt.

(** Check for split-brain: both nodes claim ACTIVE. *)
Definition both_active (s : cluster_state_t) : bool :=
  (local_role s =? CLUSTER_ROLE_ACTIVE) && (peer_role s =? CLUSTER_ROLE_ACTIVE).

Definition tick_split_brain (e : env) : M unit :=
  s <- get ;;
  if both_active s then
    if negb (split_brain_detected s) then
      emit (Syslog LOG_CRIT
        "CLUSTER SPLIT-BRAIN DETECTED: Both nodes active! Cluster ID: %d") ;;
      modify (set_split_brain_detected true) ;;
      s <- get ;;
      if auto_recovery_enabled s then
        _ <- cluster_auto_resolve_split_brain e ;; ret tt
      else ret tt
    else ret tt
  else ret tt.

(** Send heartbeat to peer. *)
Definition tick_send (e : env) : M unit :=
  s <- get ;;
  let msg := mkMsg (cluster_id s) (local_role s)
                   (zeroed SENDER_SERIAL_SIZE) (time_now e) in
  let msg := mkMsg (msg_cluster_id msg) (sender_role msg)
                   (strncpy (sender_serial msg) (local_serial s)
                            (SENDER_SERIAL_SIZE - 1))
                   (timestamp msg) in
  emit (HeartbeatSend msg) ;;
  modify (set_last_heartbeat_tx (time_now e)).

Definition cluster_heartbeat_tick (e : env) : M Z :=
  tick_liveness e ;;
  tick_split_brain e ;;
  tick_send e ;;
  ret 0.

(** [cluster_heartbeat_received] *)
Definition cluster_heartbeat_received (e : env) (msg : heartbeat_msg_t) : M Z :=
  modify (set_last_heartbeat_rx (time_now e)) ;;
  modify (set_heartbeat_up true) ;;
  modify (set_peer_role (sender_role msg)) ;;
  s <- get ;;
  modify (set_peer_serial
            (strncpy (peer_serial s) (sender_serial msg) (SERIAL_SIZE - 1))) ;;
  s <- get ;;
  (if split_brain_detected s && heartbeat_up s then
     emit (Syslog LOG_INFO
       "Cluster: Heartbeat restored during split-brain. Manual or auto recovery can proceed.")
   else ret tt) ;;
  ret 0.

(** [cluster_force_role] *)
Definition cluster_force_role (role : Z) : M Z :=
  emit (Syslog LOG_WARNING
          "Cluster: Forcing role to %s (operator command)") ;;
  (if role =? CLUSTER_ROLE_STANDBY then
     emit ReleaseVirtualIps ;;
     emit FlushMacTables
   else if role =? CLUSTER_ROLE_ACTIVE then
     emit ActivateVirtualIps ;;
     emit ActivateMacTables
   else ret tt) ;;
  modify (set_local_role role) ;;
  modify (set_split_brain_detected false) ;;
  ret 0.

(** [cluster_get_status].  The argument is [None] for a null pointer and
    [Some d] for a pointer to a structure whose current content is [d];
    the structure as the call leaves it is returned with the [int]. *)
Definition cluster_get_status (status : option cluster_status_t)
  : M (Z * option cluster_status_t) :=
  match status with
  | None => ret (-1, None)
  | Some d =>
      s <- get ;;
      ret (0, Some
        (mkStatus (cluster_id s) (local_role s) (peer_role s)
                  (heartbeat_up s) (split_brain_detected s)
                  (last_heartbeat_rx s)
                  (strncpy (status_local_serial d) (local_serial s)
                           (List.length (status_local_serial d) - 1))
                  (strncpy (status_peer_serial d) (peer_serial s)
                           (List.length (status_peer_serial d) - 1))))
  end.

(* ================================================================== *)
(** ** Sequences of operations *)
(* ================================================================== *)

(** One call of a public operation after [cluster_state_init], with what
    it reads from its caller and from the environment. *)
Inductive op : Type :=
| OpTick (e : env)
| OpReceived (e : env) (msg : heartbeat_msg_t)
| OpForceRole (role : Z)
| OpGetStatus (status : option cluster_status_t).

Definition step (o : op) : M Z :=
  match o with
  | OpTick e => cluster_heartbeat_tick e
  | OpReceived e msg => cluster_heartbeat_received e msg
  | OpForceRole role => cluster_force_role role
  | OpGetStatus status => r <- cluster_get_status status ;; ret (fst r)
  end.

Fixpoint run (ops : list op) : M unit :=
  match ops with
  | [] => ret tt
  | o :: rest => step o ;; run rest
  end.

(** [n] consecutive ticks, the [i]-th reading the clock as [clock i]. *)
Fixpoint ticks (clock : nat -> env) (n : nat) : list op :=
  match n with
  | O => []
  | S k => OpTick (clock O) :: ticks (fun i => clock (S i)) k
  end.

(* ================================================================== *)
(** ** Predicates used by the properties *)
(* ================================================================== *)

(** The three roles a node can hold. *)
Definition role_in_domain (r : Z) : Prop :=
  r = CLUSTER_ROLE_INIT \/ r = CLUSTER_ROLE_ACTIVE \/ r = CLUSTER_ROLE_STANDBY.

Definition roles_in_domain (s : cluster_state_t) : Prop :=
  role_in_domain (local_role s) /\ role_in_domain (peer_role s).

(** Inputs that carry a role: a heartbeat announces one of the three
    roles, an operator asks for ACTIVE or STANDBY. *)
Definition op_roles_in_domain (o : op) : Prop :=
  match o with
  | OpReceived _ msg => role_in_domain (sender_role msg)
  | OpForceRole role =>
      role = CLUSTER_ROLE_ACTIVE \/ role = CLUSTER_ROLE_STANDBY
  | _ => True
  end.

(** The states the cluster object can be in: [cluster] is a static of the
    file, so a state is what [cluster_state_init] leaves, followed by any
    sequence of the public operations. *)
Definition reachable (s : cluster_state_t) : Prop :=
  exists (id : Z) (src : list byte) (s0 : cluster_state_t) (ops : list op),
    s = state_of (run ops (state_of (cluster_state_init id src s0))).

(** A serial buffer of the cluster object: 32 bytes, the last one NUL
    (it is zeroed by [cluster_state_init] and no [strncpy] reaches it). *)
Definition serial_buffer (buf : list byte) : Prop :=
  List.length buf = SERIAL_SIZE /\ nth (SERIAL_SIZE - 1) buf NUL = NUL.

Definition serial_buffers (s : cluster_state_t) : Prop :=
  serial_buffer (local_serial s) /\ serial_buffer (peer_serial s).

(** Byte sequences in lexicographic order of their unsigned values. *)
Fixpoint bytes_compare (a b : list byte) : comparison :=
  match a, b with
  | [], [] => Eq
  | [], _ :: _ => Lt
  | _ :: _, [] => Gt
  | x :: a', y :: b' =>
      match uchar x ?= uchar y with
      | Eq => bytes_compare a' b'
      | c => c
      end
  end.

(** Calls to the Role Actuator in a trace. *)
Definition is_activate_vips (ev : event) : bool :=
  match ev with ActivateVirtualIps => true | _ => false end.
Definition is_activate_mac (ev : event) : bool :=
  match ev with ActivateMacTables => true | _ => false end.
Definition is_release_vips (ev : event) : bool :=
  match ev with ReleaseVirtualIps => true | _ => false end.
Definition is_flush_mac (ev : event) : bool :=
  match ev with FlushMacTables => true | _ => false end.
Definition is_actuator (ev : event) : bool :=
  is_activate_vips ev || is_activate_mac ev
  || is_release_vips ev || is_flush_mac ev.
Definition is_crit (ev : event) : bool :=
  match ev with Syslog LOG_CRIT _ => true | _ => false end.

Definition calls (p : event -> bool) (t : list event) : nat :=
  List.length (filter p t).

(** The trace with the log lines and the heartbeat transmissions left
    out: the calls that acquire or release forwarding resources. *)
Definition actuator_calls (t : list event) : list event := filter is_actuator t.

Definition activation_path : list event := [ActivateVirtualIps; ActivateMacTables].
Definition release_path : list event := [ReleaseVirtualIps; FlushMacTables].

(** What a run shows about the dual-active condition: a tick that finds
    both roles ACTIVE at its split-brain check, a self-demotion by the
    resolver (the only place where a tick releases resources), an
    operator override. *)
Inductive mark : Type := DualActiveSeen | Resolved | Overridden.

Definition marks_of (o : op) (s : cluster_state_t) : list mark :=
  match o with
  | OpTick e =>
      (if both_active (state_of (tick_liveness e s))
       then [DualActiveSeen] else [])
      ++ (if existsb is_release_vips (trace_of (cluster_heartbeat_tick e s))
          then [Resolved] else [])
  | OpForceRole _ => [Overridden]
  | OpReceived _ _ => []
  | OpGetStatus _ => []
  end.

Fixpoint history (ops : list op) (s : cluster_state_t) : list mark :=
  match ops with
  | [] => []
  | o :: rest => marks_of o s ++ history rest (state_of (step o s))
  end.

(** Some tick has seen both roles ACTIVE, and neither a resolution nor an
    override came after it. *)
Definition pending (h : list mark) : Prop :=
  exists before after,
    h = before ++ DualActiveSeen :: after
    /\ Forall (fun m => m = DualActiveSeen) after.

(** The heartbeats handed to the transport, in the order of the calls. *)
Fixpoint sent (t : list event) : list heartbeat_msg_t :=
  match t with
  | [] => []
  | HeartbeatSend m :: rest => m :: sent rest
  | _ :: rest => sent rest
  end.

(** The first log line of the resolver: its presence in a trace tells
    that [cluster_auto_resolve_split_brain] was entered. *)
Definition is_resolver_entry (ev : event) : bool :=
  match ev with
  | Syslog LOG_INFO fmt =>
      String.eqb fmt "Cluster: Auto-resolving split-brain using policy: %s"
  | _ => false
  end.

(** Kinds of operations in a sequence. *)
Definition is_force (role : Z) (o : op) : bool :=
  match o with OpForceRole r => r =? role | _ => false end.
Definition is_override (o : op) : bool :=
  match o with OpForceRole _ => true | _ => false end.
Definition is_receive (o : op) : bool :=
  match o with OpReceived _ _ => true | _ => false end.

Definition count_ops (p : op -> bool) (ops : list op) : nat :=
  List.length (filter p ops).

(** Serial numbers of the examples. *)
Definition serial (s : string) : list byte := list_byte_of_string s.

(** A pair in the dual-active condition, as a tick finds it. *)
Definition dual_active (l p : string) (auto : bool) : cluster_state_t :=
  mkCluster CLUSTER_ROLE_ACTIVE CLUSTER_ROLE_ACTIVE true 100 100 7
    (strncpy (zeroed SERIAL_SIZE) (serial l) (SERIAL_SIZE - 1))
    (strncpy (zeroed SERIAL_SIZE) (serial p) (SERIAL_SIZE - 1))
    false auto ELECTION_PRIORITY_SERIAL.


(* ================================================================== *)
(** ** BGP session timers (src/routing/bgp_timers.c) *)
(* ================================================================== *)

(** The per-VRF timer table and its five operations.  The file-static
    table and counter are passed explicitly; every operation returns its
    C result, the table as it leaves it and the log lines it writes. *)
Module BgpTimers.

(** Default timer values (seconds) *)
Definition BGP_DEFAULT_HOLD_TIME : Z := 180.
Definition BGP_DEFAULT_KEEPALIVE : Z := 60.
Definition BGP_DEFAULT_CONNECT_RETRY : Z := 120.
Definition BGP_MIN_HOLD_TIME : Z := 3.
Definition BGP_HOLD_TIME_DISABLED : Z := 0.

(** Maximum VRF instances supported *)
Definition MAX_VRF_INSTANCES : nat := 256.

(** [sizeof(vrf_timers[i].vrf_name)] *)
Definition VRF_NAME_SIZE : nat := 64.

(** [vrf_timer_config_t] *)
Record vrf_timer_config_t : Type := mkTimer {
  vrf_id : Z;
  vrf_name : list byte;
  hold_time : Z;
  keepalive : Z;
  connect_retry : Z;
  configured : bool;
  initialized : bool
}.

(** Modelled from the spec: [vrf_info_t] is declared in vrf_manager.h,
    which is not part of the sources.  The members are the two that
    [bgp_timers_init] reads. *)
Record vrf_info_t : Type := mkInfo {
  info_vrf_id : Z;
  info_vrf_name : list byte
}.

(** The two file-static objects. *)
Record timers_t : Type := mkTimers {
  vrf_timers : list vrf_timer_config_t;
  vrf_timer_count : Z
}.

(** A slot of the zero-initialised static array. *)
Definition zero_timer : vrf_timer_config_t :=
  mkTimer 0 (zeroed VRF_NAME_SIZE) 0 0 0 false false.

(** The table at program start. *)
Definition zero_timers : timers_t :=
  mkTimers (repeat zero_timer MAX_VRF_INSTANCES) 0.

Inductive log_level : Type := LOG_ERR | LOG_WARNING | LOG_INFO | LOG_DEBUG.

(** A call to [syslog_write]: severity and format string. *)
Inductive log_line : Type := Log (level : log_level) (fmt : string).

(** What [bgp_timers_init] obtains from the VRF manager:
    [vrf_manager_get_count()], and from
    [vrf_manager_get_vrf_list(vrf_list, MAX_VRF_INSTANCES)] the returned
    count and the content of the local array [vrf_list] after the call. *)
Record vrf_manager : Type := mkManager {
  num_vrfs : Z;
  list_count : Z;
  vrf_list : list vrf_info_t
}.

(** [vrf_timers[i]] and [vrf_list[i]]. *)
Definition timer_at (i : nat) (tbl : list vrf_timer_config_t)
  : vrf_timer_config_t := nth i tbl zero_timer.

Definition info_at (i : nat) (l : list vrf_info_t) : vrf_info_t :=
  nth i l (mkInfo 0 []).

(** Assignment to the members of [vrf_timers[i]]; the operations only
    index inside the array. *)
Fixpoint update (i : nat) (f : vrf_timer_config_t -> vrf_timer_config_t)
  (tbl : list vrf_timer_config_t) : list vrf_timer_config_t :=
  match tbl, i with
  | [], _ => []
  | t :: rest, O => f t :: rest
  | t :: rest, S k => t :: update k f rest
  end.

(** Initialize default VRF timers (always index 0); [configured] is
    neither read nor written. *)
Definition init_default (t : vrf_timer_config_t) : vrf_timer_config_t :=
  mkTimer 0
    (strncpy (vrf_name t) (list_byte_of_string "default") (VRF_NAME_SIZE - 1))
    BGP_DEFAULT_HOLD_TIME BGP_DEFAULT_KEEPALIVE BGP_DEFAULT_CONNECT_RETRY
    (configured t) true.

(** The body of the loop over the named VRFs, on [vrf_timers[vrf_idx]]. *)
Definition init_named (info : vrf_info_t) (t : vrf_timer_config_t)
  : vrf_timer_config_t :=
  let name := strncpy (vrf_name t) (info_vrf_name info) (VRF_NAME_SIZE - 1) in
  if configured t then
    mkTimer (info_vrf_id info) name (hold_time t) (keepalive t)
            (connect_retry t) (configured t) true
  else
    mkTimer (info_vrf_id info) name BGP_DEFAULT_HOLD_TIME
            BGP_DEFAULT_KEEPALIVE BGP_DEFAULT_CONNECT_RETRY
            (configured t) true.

Definition configured_line : log_line :=
  Log LOG_DEBUG "BGP timers: VRF '%s' using configured hold=%d keepalive=%d".

(** [for (int i = 0; i < named_vrf_count; i++)], with [n] the iterations
    that remain and [i] the current index. *)
Fixpoint init_loop (n i : nat) (m : vrf_manager) (st : timers_t)
  : timers_t * list log_line :=
  match n with
  | O => (st, [])
  | S k =>
      let vrf_idx := S i in
      if Z.of_nat vrf_idx >=? list_count m then (st, [])
      else
        let old := timer_at vrf_idx (vrf_timers st) in
        let st1 :=
          mkTimers (update vrf_idx (init_named (info_at vrf_idx (vrf_list m)))
                      (vrf_timers st))
                   (vrf_timer_count st + 1) in
        let '(st2, t2) := init_loop k (S i) m st1 in
        (st2, (if configured old then [configured_line] else []) ++ t2)
  end.

(** [bgp_timers_init] *)
Definition bgp_timers_init (m : vrf_manager) (st : timers_t)
  : Z * timers_t * list log_line :=
  if num_vrfs m <=? 0 then
    (-1, st, [Log LOG_ERR "BGP timers: No VRFs configured"])
  else
    let named_vrf_count := num_vrfs m - 1 in
    let t0 := [Log LOG_INFO
      "BGP timers: Initializing for %d VRF instances (total VRFs reported: %d)"] in
    if list_count m <? 0 then
      (-1, st, t0 ++ [Log LOG_ERR "BGP timers: Failed to get VRF list"])
    else
      let st1 := mkTimers (update 0 init_default (vrf_timers st)) 1 in
      let '(st2, t2) := init_loop (Z.to_nat named_vrf_count) 0 m st1 in
      (0, st2,
       t0 ++ t2
       ++ [Log LOG_INFO "BGP timers: Initialized %d VRF timer entries"]).

(** The entry the two getters stop at: the first one, in index order,
    with the requested id and [initialized] set. *)
Definition lookup (id : Z) (tbl : list vrf_timer_config_t)
  : option vrf_timer_config_t :=
  find (fun t => (vrf_id t =? id) && initialized t) tbl.

(** [bgp_timers_get_hold_time] *)
Definition bgp_timers_get_hold_time (id remote_hold_time : Z) (st : timers_t)
  : Z * list log_line :=
  match lookup id (vrf_timers st) with
  | Some t =>
      let local_hold := hold_time t in
      if (remote_hold_time =? BGP_HOLD_TIME_DISABLED)
         || (local_hold =? BGP_HOLD_TIME_DISABLED)
      then (BGP_HOLD_TIME_DISABLED, [])
      else ((if local_hold <? remote_hold_time
             then local_hold else remote_hold_time), [])
  | None =>
      (BGP_HOLD_TIME_DISABLED,
       [Log LOG_WARNING
          "BGP timers: No timer entry for VRF %d, returning hold_time=0"])
  end.

(** [bgp_timers_get_keepalive] *)
Definition bgp_timers_get_keepalive (id : Z) (st : timers_t)
  : Z * list log_line :=
  match lookup id (vrf_timers st) with
  | Some t =>
      if keepalive t >? 0 then (keepalive t, [])
      else (hold_time t / 3, [])
  | None => (0, [Log LOG_WARNING "BGP timers: No keepalive for VRF %d"])
  end.

(** What [bgp_timers_set] assigns to the entry it finds: [hold_time],
    [keepalive] and [configured]. *)
Definition set_entry (hold keep : Z) (t : vrf_timer_config_t)
  : vrf_timer_config_t :=
  mkTimer (vrf_id t) (vrf_name t) hold keep (connect_retry t)
          true (initialized t).

(** The loop of [bgp_timers_set]: the first entry with the requested id,
    initialised or not, takes the values. *)
Fixpoint set_first (id hold keep : Z) (tbl : list vrf_timer_config_t)
  : option (list vrf_timer_config_t) :=
  match tbl with
  | [] => None
  | t :: rest =>
      if vrf_id t =? id then
        Some (set_entry hold keep t :: rest)
      else
        match set_first id hold keep rest with
        | Some rest' => Some (t :: rest')
        | None => None
        end
  end.

(** [bgp_timers_set] *)
Definition bgp_timers_set (id hold keep : Z) (st : timers_t)
  : Z * timers_t * list log_line :=
  if negb (hold =? BGP_HOLD_TIME_DISABLED) && (hold <? BGP_MIN_HOLD_TIME) then
    (-1, st, [Log LOG_ERR "BGP timers: Hold time %d below minimum %d"])
  else
    match set_first id hold keep (vrf_timers st) with
    | Some tbl =>
        (0, mkTimers tbl (vrf_timer_count st),
         [Log LOG_INFO "BGP timers: VRF %d set hold=%d keepalive=%d"])
    | None => (-1, st, [Log LOG_ERR "BGP timers: VRF %d not found"])
    end.

(** [bgp_timers_dump].  A line of the loop shows the index and the entry
    read at that index, [None] when the index is outside the array. *)
Inductive dump_line : Type :=
| Line (l : log_line)
| EntryLine (i : nat) (t : option vrf_timer_config_t).

Definition bgp_timers_dump (reported : Z) (st : timers_t) : list dump_line :=
  [Line (Log LOG_DEBUG "=== BGP Timer State Dump ===");
   Line (Log LOG_DEBUG "VRF count: %d (timer entries: %d)")]
  ++ map (fun i => EntryLine i (nth_error (vrf_timers st) i))
         (seq 0 (Z.to_nat (vrf_timer_count st + 1)))
  ++ [Line (Log LOG_DEBUG "=== End Timer Dump ===")].

(** The entries a dump reads, with their indices. *)
Fixpoint dumped (l : list dump_line)
  : list (nat * option vrf_timer_config_t) :=
  match l with
  | [] => []
  | EntryLine i t :: rest => (i, t) :: dumped rest
  | Line _ :: rest => dumped rest
  end.

(** The table as the operations keep it: [MAX_VRF_INSTANCES] slots. *)
Definition table_ok (st : timers_t) : Prop :=
  List.length (vrf_timers st) = MAX_VRF_INSTANCES.

(** A VRF manager whose list fits the local array of
    [MAX_VRF_INSTANCES] entries. *)
Definition manager_ok (m : vrf_manager) : Prop :=
  list_count m <= Z.of_nat MAX_VRF_INSTANCES
  /\ List.length (vrf_list m) = MAX_VRF_INSTANCES.

(** The number of named VRFs the loop of [bgp_timers_init] handles. *)
Definition handled (m : vrf_manager) : nat :=
  Nat.min (Z.to_nat (num_vrfs m - 1)) (Z.to_nat (list_count m) - 1).

(** The hold time two speakers agree on (RFC 4271, 4.2): the smaller of
    the two proposals, zero when either side proposes zero. *)
Definition negotiated (local_hold remote_hold : Z) : Z :=
  if (remote_hold =? 0) || (local_hold =? 0) then 0
  else Z.min local_hold remote_hold.

End BgpTimers.

(* ================================================================== *)
(** ** Facts about C strings *)
(* ================================================================== *)

Lemma is_nul_true c : is_nul c = true <-> c = NUL.
Proof.
  unfold is_nul; split; intro H.
  - now apply Byte.byte_dec_bl.
  - now apply Byte.byte_dec_lb.
Qed.

Lemma uchar_range c : 0 <= uchar c <= 255.
Proof.
  unfold uchar. pose proof (Byte.to_N_bounded c). lia.
Qed.

Lemma uchar_inj x y : uchar x = uchar y -> x = y.
Proof.
  unfold uchar; intro H.
  apply N2Z.inj in H.
  pose proof (Byte.of_to_N x) as Hx.
  rewrite H, Byte.of_to_N in Hx.
  congruence.
Qed.

Lemma uchar_pos c : is_nul c = false -> 0 < uchar c.
Proof.
  intro H.
  destruct (Z.eq_dec (uchar c) 0) as [E | E].
  - change 0 with (uchar NUL) in E. apply uchar_inj in E.
    apply is_nul_true in E. congruence.
  - pose proof (uchar_range c). lia.
Qed.

Lemma cstr_not_nul buf : Forall (fun c => is_nul c = false) (cstr buf).
Proof.
  induction buf as [| c rest IH]; simpl.
  - constructor.
  - destruct (is_nul c) eqn:E; [constructor | now constructor].
Qed.

Lemma cstr_app s r :
  Forall (fun c => is_nul c = false) s -> cstr (s ++ r) = s ++ cstr r.
Proof.
  induction 1 as [| c s Hc _ IH]; simpl.
  - reflexivity.
  - now rewrite Hc, IH.
Qed.

Lemma cstr_nuls k r : cstr (repeat NUL k ++ NUL :: r) = [].
Proof. destruct k; reflexivity. Qed.

Lemma cstr_padding k : cstr (repeat NUL k) = [].
Proof. destruct k; reflexivity. Qed.

Lemma Forall_firstn_not_nul n (l : list byte) :
  Forall (fun c => is_nul c = false) l ->
  Forall (fun c => is_nul c = false) (firstn n l).
Proof.
  intro H. revert n.
  induction H as [| c l Hc _ IH]; intros [| n]; simpl; auto.
Qed.

Lemma cstr_length_terminated l r :
  (List.length (cstr (l ++ NUL :: r)) <= List.length l)%nat.
Proof.
  induction l as [| c l IH]; simpl.
  - lia.
  - destruct (is_nul c); simpl; lia.
Qed.

Lemma strncpy_length dest src n :
  (n <= List.length dest)%nat ->
  List.length (strncpy dest src n) = List.length dest.
Proof.
  intro Hn. unfold strncpy.
  rewrite !length_app, repeat_length, length_skipn.
  pose proof (firstn_le_length n (cstr src)). lia.
Qed.

Lemma strncpy_window dest src n :
  cstr (firstn n (strncpy dest src n)) = firstn n (cstr src).
Proof.
  unfold strncpy.
  pose proof (firstn_le_length n (cstr src)) as Hle.
  set (s := firstn n (cstr src)) in *.
  assert (Hn : List.length (s ++ repeat NUL (n - List.length s)) = n)
    by (rewrite length_app, repeat_length; lia).
  rewrite app_assoc, firstn_app, Hn, Nat.sub_diag.
  rewrite firstn_all2 by lia.
  simpl. rewrite app_nil_r.
  rewrite cstr_app by (apply Forall_firstn_not_nul, cstr_not_nul).
  now rewrite cstr_padding, app_nil_r.
Qed.

Lemma last_byte_tail buf :
  (0 < List.length buf)%nat ->
  nth (List.length buf - 1) buf NUL = NUL ->
  skipn (List.length buf - 1) buf = [NUL].
Proof.
  intros Hlen Hlast.
  pose proof (length_skipn (List.length buf - 1) buf) as Hl.
  pose proof (nth_skipn (List.length buf - 1) buf 0 NUL) as Hn.
  rewrite Nat.add_0_r, Hlast in Hn.
  destruct (skipn (List.length buf - 1) buf) as [| x [| y l]];
    simpl in Hl, Hn; try lia.
  now subst x.
Qed.


Lemma serial_buffer_tail buf :
  serial_buffer buf -> skipn (SERIAL_SIZE - 1) buf = [NUL].
Proof.
  intros [Hlen Hlast]. rewrite <- Hlen.
  apply last_byte_tail; rewrite Hlen; [unfold SERIAL_SIZE; lia | exact Hlast].
Qed.

Lemma serial_buffer_strlen buf :
  serial_buffer buf -> (strlen buf <= SERIAL_SIZE - 1)%nat.
Proof.
  intro H. pose proof (serial_buffer_tail _ H) as Ht.
  unfold strlen.
  rewrite <- (firstn_skipn (SERIAL_SIZE - 1) buf), Ht.
  etransitivity; [apply cstr_length_terminated |].
  apply firstn_le_length.
Qed.

Lemma zeroed_serial_buffer : serial_buffer (zeroed SERIAL_SIZE).
Proof. split; reflexivity. Qed.

Lemma strncpy_serial_buffer dest src :
  serial_buffer dest ->
  serial_buffer (strncpy dest src (SERIAL_SIZE - 1))
  /\ cstr (strncpy dest src (SERIAL_SIZE - 1))
     = firstn (SERIAL_SIZE - 1) (cstr src).
Proof.
  intro Hd. pose proof (serial_buffer_tail _ Hd) as Ht.
  destruct Hd as [Hlen Hlast].
  pose proof (firstn_le_length (SERIAL_SIZE - 1) (cstr src)) as Hle.
  repeat split.
  - rewrite strncpy_length; [assumption | rewrite Hlen; unfold SERIAL_SIZE; lia].
  - unfold strncpy. rewrite Ht, app_assoc.
    rewrite app_nth2; rewrite length_app, repeat_length.
    + replace (_ - _)%nat with 0%nat by lia. reflexivity.
    + lia.
  - unfold strncpy. rewrite Ht.
    rewrite cstr_app by (apply Forall_firstn_not_nul, cstr_not_nul).
    now rewrite cstr_nuls, app_nil_r.
Qed.

Lemma strcmp_compare a b :
  (strcmp a b ?= 0) = bytes_compare (cstr a) (cstr b).
Proof.
  revert b; induction a as [| x a IH]; intros [| y b]; simpl.
  - reflexivity.
  - destruct (is_nul y) eqn:Ey.
    + apply is_nul_true in Ey; subst y. reflexivity.
    + apply uchar_pos in Ey. change (uchar NUL) with 0.
      apply Z.compare_lt_iff. lia.
  - destruct (is_nul x) eqn:Ex.
    + apply is_nul_true in Ex; subst x. reflexivity.
    + apply uchar_pos in Ex. change (uchar NUL) with 0.
      apply Z.compare_gt_iff. lia.
  - destruct (Byte.eqb x y) eqn:Exy.
    + apply Byte.byte_dec_bl in Exy; subst y.
      destruct (is_nul x); [reflexivity |].
      simpl. now rewrite Z.compare_refl.
    + apply Byte.eqb_false in Exy.
      assert (Hne : uchar x <> uchar y) by (intro E; now apply uchar_inj in E).
      destruct (is_nul x) eqn:Ex, (is_nul y) eqn:Ey; simpl.
      * apply is_nul_true in Ex, Ey. congruence.
      * apply is_nul_true in Ex; subst x. apply uchar_pos in Ey.
        change (uchar NUL) with 0. apply Z.compare_lt_iff. lia.
      * apply is_nul_true in Ey; subst y. apply uchar_pos in Ex.
        change (uchar NUL) with 0. apply Z.compare_gt_iff. lia.
      * destruct (Z.compare_spec (uchar x) (uchar y)) as [C | C | C].
        -- contradiction.
        -- apply Z.compare_lt_iff. lia.
        -- apply Z.compare_gt_iff. lia.
Qed.

(* ================================================================== *)
(** ** The operations in closed form *)
(* ================================================================== *)

Ltac unfold_ops :=
  cbv beta iota zeta delta
    [cluster_heartbeat_tick tick_liveness tick_split_brain tick_send
     cluster_auto_resolve_split_brain cluster_heartbeat_received
     cluster_force_role cluster_get_status cluster_state_init step
     bind ret get modify emit result_of state_of trace_of fst snd].

Ltac simpl_state :=
  cbn [local_role peer_role heartbeat_up last_heartbeat_rx last_heartbeat_tx
       cluster_id local_serial peer_serial split_brain_detected
       auto_recovery_enabled election_policy
       set_local_role set_peer_role set_heartbeat_up set_last_heartbeat_rx
       set_last_heartbeat_tx set_cluster_id set_local_serial set_peer_serial
       set_split_brain_detected set_auto_recovery_enabled set_election_policy
       state_of trace_of result_of fst snd] in *.

Ltac split_all := repeat match goal with |- _ /\ _ => split end.

Lemma init_closed id src s :
  cluster_state_init id src s
  = (0,
     mkCluster CLUSTER_ROLE_INIT CLUSTER_ROLE_INIT false 0 0 id
       (strncpy (zeroed SERIAL_SIZE) src (SERIAL_SIZE - 1))
       (zeroed SERIAL_SIZE) false false ELECTION_PRIORITY_SERIAL,
     [Syslog LOG_INFO "Cluster %d initialized. Local serial: %s"]).
Proof. reflexivity. Qed.

Lemma force_role_closed role s :
  cluster_force_role role s
  = (0, set_split_brain_detected false (set_local_role role s),
     Syslog LOG_WARNING "Cluster: Forcing role to %s (operator command)"
     :: (if role =? CLUSTER_ROLE_STANDBY then release_path
         else if role =? CLUSTER_ROLE_ACTIVE then activation_path else [])).
Proof.
  unfold_ops.
  destruct (role =? CLUSTER_ROLE_STANDBY); [reflexivity |].
  destruct (role =? CLUSTER_ROLE_ACTIVE); reflexivity.
Qed.

Lemma auto_resolve_closed e s :
  cluster_auto_resolve_split_brain e s
  = if should_demote e s then
      (0, set_split_brain_detected false (set_local_role CLUSTER_ROLE_STANDBY s),
       [Syslog LOG_INFO "Cluster: Auto-resolving split-brain using policy: %s";
        Syslog LOG_WARNING
          "Cluster: Auto-demoting local node to STANDBY (serial: %s > peer: %s)";
        ReleaseVirtualIps; FlushMacTables])
    else
      (0, s,
       [Syslog LOG_INFO "Cluster: Auto-resolving split-brain using policy: %s";
        Syslog LOG_INFO
          "Cluster: Local node remains ACTIVE (serial: %s <= peer: %s). Waiting for peer to demote."]).
Proof.
  unfold_ops. destruct (should_demote e s); reflexivity.
Qed.

Lemma received_closed e msg s :
  cluster_heartbeat_received e msg s
  = (0,
     set_peer_serial
       (strncpy (peer_serial s) (sender_serial msg) (SERIAL_SIZE - 1))
       (set_peer_role (sender_role msg)
          (set_heartbeat_up true (set_last_heartbeat_rx (time_now e) s))),
     if split_brain_detected s then
       [Syslog LOG_INFO
          "Cluster: Heartbeat restored during split-brain. Manual or auto recovery can proceed."]
     else []).
Proof.
  unfold_ops. simpl. destruct (split_brain_detected s); reflexivity.
Qed.

Lemma get_status_closed status s :
  cluster_get_status status s
  = match status with
    | None => ((-1, None), s, [])
    | Some d =>
        ((0, Some
           (mkStatus (cluster_id s) (local_role s) (peer_role s)
              (heartbeat_up s) (split_brain_detected s) (last_heartbeat_rx s)
              (strncpy (status_local_serial d) (local_serial s)
                 (List.length (status_local_serial d) - 1))
              (strncpy (status_peer_serial d) (peer_serial s)
                 (List.length (status_peer_serial d) - 1)))),
         s, [])
    end.
Proof. destruct status; reflexivity. Qed.

Lemma tick_liveness_closed e s :
  tick_liveness e s
  = if heartbeat_up s
       && (difftime (time_now e) (last_heartbeat_rx s) * 1000
           >? HEARTBEAT_TIMEOUT_MS)
    then
      if local_role s =? CLUSTER_ROLE_STANDBY then
        (tt, set_local_role CLUSTER_ROLE_ACTIVE (set_heartbeat_up false s),
         [Syslog LOG_WARNING "Cluster: Heartbeat lost (last rx: %.0f ms ago)";
          Syslog LOG_WARNING
            "Cluster: STANDBY node lost heartbeat. Assuming ACTIVE node failed. Promoting to ACTIVE.";
          ActivateVirtualIps; ActivateMacTables])
      else
        (tt, set_heartbeat_up false s,
         [Syslog LOG_WARNING "Cluster: Heartbeat lost (last rx: %.0f ms ago)"])
    else (tt, s, []).
Proof.
  unfold_ops.
  destruct (heartbeat_up s && _); [| reflexivity].
  simpl. destruct (local_role s =? CLUSTER_ROLE_STANDBY); reflexivity.
Qed.

Lemma tick_split_brain_closed e s :
  tick_split_brain e s
  = if both_active s && negb (split_brain_detected s) then
      if auto_recovery_enabled s then
        let r := cluster_auto_resolve_split_brain
                   e (set_split_brain_detected true s) in
        (tt, state_of r,
         Syslog LOG_CRIT
           "CLUSTER SPLIT-BRAIN DETECTED: Both nodes active! Cluster ID: %d"
         :: trace_of r)
      else
        (tt, set_split_brain_detected true s,
         [Syslog LOG_CRIT
            "CLUSTER SPLIT-BRAIN DETECTED: Both nodes active! Cluster ID: %d"])
    else (tt, s, []).
Proof.
  unfold tick_split_brain.
  cbv beta iota zeta delta [bind ret get modify emit].
  destruct (both_active s); [| reflexivity].
  destruct (split_brain_detected s); [reflexivity |].
  simpl. destruct (auto_recovery_enabled s); [| reflexivity].
  destruct (cluster_auto_resolve_split_brain e _) as [[v s'] t].
  unfold state_of, trace_of. simpl. now rewrite app_nil_r.
Qed.

Lemma tick_send_closed e s :
  tick_send e s
  = (tt, set_last_heartbeat_tx (time_now e) s,
     [HeartbeatSend
        (mkMsg (cluster_id s) (local_role s)
           (strncpy (zeroed SENDER_SERIAL_SIZE) (local_serial s)
              (SENDER_SERIAL_SIZE - 1))
           (time_now e))]).
Proof. reflexivity. Qed.

Lemma tick_closed e s :
  cluster_heartbeat_tick e s
  = let r1 := tick_liveness e s in
    let r2 := tick_split_brain e (state_of r1) in
    let r3 := tick_send e (state_of r2) in
    (0, state_of r3, trace_of r1 ++ trace_of r2 ++ trace_of r3).
Proof.
  unfold cluster_heartbeat_tick.
  cbv beta iota zeta delta [bind ret].
  destruct (tick_liveness e s) as [[u1 s1] t1].
  cbv beta iota zeta delta [state_of trace_of fst snd].
  destruct (tick_split_brain e s1) as [[u2 s2] t2].
  cbv beta iota zeta.
  destruct (tick_send e s2) as [[u3 s3] t3].
  now rewrite app_nil_r.
Qed.

Lemma step_get_status status s :
  step (OpGetStatus status) s
  = (fst (result_of (cluster_get_status status s)), s, []).
Proof. destruct status; reflexivity. Qed.

Lemma run_cons o rest s :
  run (o :: rest) s
  = let r1 := step o s in
    let r2 := run rest (state_of r1) in
    (tt, state_of r2, trace_of r1 ++ trace_of r2).
Proof.
  simpl. cbv beta iota zeta delta [bind].
  destruct (step o s) as [[v s1] t1].
  cbv beta iota zeta delta [state_of trace_of fst snd].
  destruct (run rest s1) as [[[] s2] t2]. reflexivity.
Qed.

Lemma should_demote_frame e s role flag :
  should_demote e (set_split_brain_detected flag (set_local_role role s))
  = should_demote e s.
Proof. reflexivity. Qed.

Lemma calls_app p t1 t2 : calls p (t1 ++ t2) = (calls p t1 + calls p t2)%nat.
Proof. unfold calls. now rewrite filter_app, length_app. Qed.

(** The paths through [cluster_heartbeat_tick]: every test of the body
    is decided and the state and the trace are computed. *)
Ltac tick_paths e s :=
  rewrite ?tick_closed; cbv zeta;
  rewrite ?tick_liveness_closed;
  destruct (heartbeat_up s
            && (difftime (time_now e) (last_heartbeat_rx s) * 1000
                >? HEARTBEAT_TIMEOUT_MS)) eqn:Hlost;
  [ destruct (local_role s =? CLUSTER_ROLE_STANDBY) eqn:Hstandby | ];
  simpl_state;
  rewrite ?tick_split_brain_closed;
  unfold both_active in *; simpl_state;
  try rewrite Z.eqb_refl;
  match goal with
  | |- context [(local_role s =? CLUSTER_ROLE_ACTIVE)] =>
      destruct (local_role s =? CLUSTER_ROLE_ACTIVE) eqn:Hactive
  | _ => idtac
  end;
  destruct (peer_role s =? CLUSTER_ROLE_ACTIVE) eqn:Hpeer;
  destruct (split_brain_detected s) eqn:Hflag;
  destruct (auto_recovery_enabled s) eqn:Hauto;
  cbn [andb negb]; cbv zeta;
  rewrite ?auto_resolve_closed;
  change (should_demote e _) with (should_demote e s);
  try (destruct (should_demote e s) eqn:Hdemote);
  rewrite ?tick_send_closed;
  simpl_state.

(* ================================================================== *)
(** ** What every operation preserves *)
(* ================================================================== *)

Lemma tick_roles e s :
  let s' := state_of (cluster_heartbeat_tick e s) in
  peer_role s' = peer_role s
  /\ (local_role s' = local_role s
      \/ local_role s' = CLUSTER_ROLE_ACTIVE
      \/ local_role s' = CLUSTER_ROLE_STANDBY).
Proof.
  cbv zeta. tick_paths e s; split; auto.
Qed.

Lemma step_roles o s :
  roles_in_domain s -> op_roles_in_domain o ->
  roles_in_domain (state_of (step o s)).
Proof.
  intros [Hl Hp] Ho. destruct o as [e | e msg | role | status].
  - cbn [step]. destruct (tick_roles e s) as [Hp' Hl']. split.
    + destruct Hl' as [-> | [-> | ->]]; unfold role_in_domain; auto.
    + now rewrite Hp'.
  - cbn [step]. rewrite received_closed. split; simpl_state; assumption.
  - cbn [step]. rewrite force_role_closed. split; simpl_state; [| assumption].
    unfold role_in_domain. simpl in Ho. tauto.
  - rewrite step_get_status. split; assumption.
Qed.

(** The serial buffers keep their size and their final NUL. *)
Lemma tick_serials e s :
  let s' := state_of (cluster_heartbeat_tick e s) in
  local_serial s' = local_serial s /\ peer_serial s' = peer_serial s.
Proof. cbv zeta. tick_paths e s; split; reflexivity. Qed.

Lemma init_serial_buffers id src s :
  serial_buffers (state_of (cluster_state_init id src s)).
Proof.
  rewrite init_closed. split; simpl_state.
  - apply strncpy_serial_buffer, zeroed_serial_buffer.
  - apply zeroed_serial_buffer.
Qed.

Lemma step_serial_buffers o s :
  serial_buffers s -> serial_buffers (state_of (step o s)).
Proof.
  intros [Hl Hp]. destruct o as [e | e msg | role | status].
  - cbn [step]. destruct (tick_serials e s) as [El Ep].
    split; [rewrite El | rewrite Ep]; assumption.
  - cbn [step]. rewrite received_closed. split; simpl_state;
      [assumption | now apply strncpy_serial_buffer].
  - cbn [step]. rewrite force_role_closed. split; assumption.
  - rewrite step_get_status. split; assumption.
Qed.

Lemma run_serial_buffers ops :
  forall s, serial_buffers s -> serial_buffers (state_of (run ops s)).
Proof.
  induction ops as [| o rest IH]; intros s Hs.
  - exact Hs.
  - rewrite run_cons. simpl_state. now apply IH, step_serial_buffers.
Qed.

Lemma tick_frame e s :
  let s' := state_of (cluster_heartbeat_tick e s) in
  cluster_id s' = cluster_id s
  /\ local_serial s' = local_serial s
  /\ peer_serial s' = peer_serial s
  /\ auto_recovery_enabled s' = auto_recovery_enabled s
  /\ election_policy s' = election_policy s
  /\ peer_role s' = peer_role s
  /\ last_heartbeat_rx s' = last_heartbeat_rx s
  /\ last_heartbeat_tx s' = time_now e.
Proof.
  cbv zeta. tick_paths e s; split_all; first [reflexivity | congruence].
Qed.


Lemma step_config o s :
  let s' := state_of (step o s) in
  cluster_id s' = cluster_id s
  /\ local_serial s' = local_serial s
  /\ auto_recovery_enabled s' = auto_recovery_enabled s
  /\ election_policy s' = election_policy s.
Proof.
  destruct o as [e | e msg | role | status]; cbv zeta.
  - cbn [step]. destruct (tick_frame e s) as (H1 & H2 & _ & H4 & H5 & _).
    auto.
  - cbn [step]. rewrite received_closed. split_all; reflexivity.
  - cbn [step]. rewrite force_role_closed. split_all; reflexivity.
  - rewrite step_get_status. split_all; reflexivity.
Qed.


Lemma run_config ops :
  forall s,
    let s' := state_of (run ops s) in
    cluster_id s' = cluster_id s
    /\ local_serial s' = local_serial s
    /\ auto_recovery_enabled s' = auto_recovery_enabled s
    /\ election_policy s' = election_policy s.
Proof.
  induction ops as [| o rest IH]; intros s; cbv zeta.
  - split_all; reflexivity.
  - rewrite run_cons. simpl_state.
    destruct (IH (state_of (step o s))) as (H1 & H2 & H3 & H4).
    destruct (step_config o s) as (K1 & K2 & K3 & K4).
    rewrite H1, H2, H3, H4. auto.
Qed.

(** Automatic recovery is off in every state the operations produce:
    [cluster_state_init] writes false and nothing writes the member
    afterwards. *)
Lemma reachable_recovery_off s :
  reachable s -> auto_recovery_enabled s = false.
Proof.
  intros (id & src & s0 & ops & ->).
  destruct (run_config ops (state_of (cluster_state_init id src s0)))
    as (_ & _ & H & _).
  rewrite H, init_closed. reflexivity.
Qed.

Lemma reachable_step o s : reachable s -> reachable (state_of (step o s)).
Proof.
  intros (id & src & s0 & ops & ->).
  exists id, src, s0, (ops ++ [o]).
  generalize (state_of (cluster_state_init id src s0)) as s1.
  induction ops as [| o' rest IH]; intro s1.
  - cbn [app]. rewrite !run_cons. reflexivity.
  - cbn [app]. rewrite !run_cons. simpl_state. apply IH.
Qed.

(* ================================================================== *)
(** ** Role domain *)
(* ================================================================== *)

(** C1 (role domain), as the code has it.  [cluster_state_init] leaves
    both roles at INIT.  From then on, and from any state with both roles
    in {INIT, ACTIVE, STANDBY}, every sequence of ticks, received
    heartbeats, operator overrides and status queries keeps both roles in
    that set, provided each heartbeat announces a role of the set and
    each override asks for ACTIVE or STANDBY.  (The code stores the
    sender's role and the operator's argument unchecked; see the
    counterexample.) *)
Theorem roles_stay_in_domain :
  forall (id : Z) (src : list byte) (s : cluster_state_t) (ops : list op),
    Forall op_roles_in_domain ops ->
    let s0 := state_of (cluster_state_init id src s) in
    roles_in_domain s0
    /\ roles_in_domain (state_of (run ops s0))
    /\ forall s1 : cluster_state_t,
         roles_in_domain s1 -> roles_in_domain (state_of (run ops s1)).
Proof.
  intros id src s ops Hops s0.
  assert (H0 : roles_in_domain s0)
    by (subst s0; rewrite init_closed; split; left; reflexivity).
  assert (Hrun : forall s1, roles_in_domain s1 ->
                            roles_in_domain (state_of (run ops s1))).
  { induction Hops as [| o rest Ho _ IH]; intros s1 H1.
    - exact H1.
    - rewrite run_cons. simpl_state. apply IH. now apply step_roles. }
  auto.
Qed.

Lemma roles_stay_in_domain_witness :
  let s0 := state_of (cluster_state_init 7 (serial "SN2000") zero_state) in
  let e := mkEnv 100 0 0 in
  let ops := [OpReceived e (mkMsg 7 CLUSTER_ROLE_ACTIVE (serial "SN1000") 100);
              OpForceRole CLUSTER_ROLE_STANDBY;
              OpTick (mkEnv 104 0 0);
              OpGetStatus None] in
  Forall op_roles_in_domain ops
  /\ roles_in_domain (state_of (run ops s0)).
Proof.
  intros s0 e ops.
  assert (Hops : Forall op_roles_in_domain ops).
  { apply Forall_cons; [right; left; reflexivity |].
    apply Forall_cons; [right; reflexivity |].
    apply Forall_cons; [exact I |].
    apply Forall_cons; [exact I | apply Forall_nil]. }
  destruct (roles_stay_in_domain 7 (serial "SN2000") zero_state ops Hops)
    as (_ & H & _).
  exact (conj Hops H).
Defined.

(** A heartbeat that announces SPLIT, and an override that asks for it,
    put SPLIT into [peer_role] and into [local_role]. *)
Lemma roles_stay_in_domain_counterexample :
  let s0 := state_of (cluster_state_init 7 (serial "SN2000") zero_state) in
  let hb := mkMsg 7 CLUSTER_ROLE_SPLIT (serial "SN1000") 100 in
  peer_role (state_of (run [OpReceived (mkEnv 100 0 0) hb] s0))
  = CLUSTER_ROLE_SPLIT
  /\ local_role (state_of (run [OpForceRole CLUSTER_ROLE_SPLIT] s0))
     = CLUSTER_ROLE_SPLIT
  /\ ~ roles_in_domain
         (state_of (run [OpReceived (mkEnv 100 0 0) hb] s0))
  /\ ~ roles_in_domain
         (state_of (run [OpForceRole CLUSTER_ROLE_SPLIT] s0)).
Proof.
  split; [reflexivity |]. split; [reflexivity |].
  split; intros [Hl Hp].
  - destruct Hp as [H | [H | H]]; discriminate H.
  - destruct Hl as [H | [H | H]]; discriminate H.
Qed.

(* ================================================================== *)
(** ** The resolver *)
(* ================================================================== *)

(** C2 (SerialNumber tie-break).  With both roles ACTIVE and the
    SerialNumber policy, the resolver decides by the order of the two
    serial strings as byte sequences ([strcmp] agrees with
    [bytes_compare], lemma [strcmp_compare]).  If the local serial is
    strictly greater, the node becomes STANDBY, the release path is
    called and [split_brain_detected] is cleared.  If it is strictly
    smaller, or the two are equal, the state is left as it was:
    [local_role] stays ACTIVE, the flag keeps its value, and the Role
    Actuator is not called. *)
Theorem serial_tie_break :
  forall (e : env) (s : cluster_state_t),
    local_role s = CLUSTER_ROLE_ACTIVE ->
    peer_role s = CLUSTER_ROLE_ACTIVE ->
    election_policy s = ELECTION_PRIORITY_SERIAL ->
    let r := cluster_auto_resolve_split_brain e s in
    match bytes_compare (cstr (local_serial s)) (cstr (peer_serial s)) with
    | Gt =>
        local_role (state_of r) = CLUSTER_ROLE_STANDBY
        /\ split_brain_detected (state_of r) = false
        /\ actuator_calls (trace_of r) = release_path
        /\ state_of r
           = set_split_brain_detected false
               (set_local_role CLUSTER_ROLE_STANDBY s)
    | Lt | Eq =>
        local_role (state_of r) = CLUSTER_ROLE_ACTIVE
        /\ split_brain_detected (state_of r) = split_brain_detected s
        /\ actuator_calls (trace_of r) = []
        /\ state_of r = s
    end.
Proof.
  intros e s Hl Hp Hpol r. subst r.
  rewrite auto_resolve_closed. unfold should_demote.
  rewrite Hpol, Z.eqb_refl.
  rewrite <- strcmp_compare. unfold Z.gtb.
  destruct (strcmp (local_serial s) (peer_serial s) ?= 0);
    simpl_state; split_all; try reflexivity; assumption.
Qed.

Lemma serial_tie_break_witness :
  let mk (l p : string) :=
    mkCluster CLUSTER_ROLE_ACTIVE CLUSTER_ROLE_ACTIVE true 0 0 7
      (strncpy (zeroed SERIAL_SIZE) (serial l) (SERIAL_SIZE - 1))
      (strncpy (zeroed SERIAL_SIZE) (serial p) (SERIAL_SIZE - 1))
      true true ELECTION_PRIORITY_SERIAL in
  let e := mkEnv 0 0 0 in
  let hi := cluster_auto_resolve_split_brain e (mk "SN2000" "SN1000")%string in
  let lo := cluster_auto_resolve_split_brain e (mk "SN1000" "SN2000")%string in
  let eq := cluster_auto_resolve_split_brain e (mk "SN1000" "SN1000")%string in
  (local_role (state_of hi) = CLUSTER_ROLE_STANDBY
   /\ split_brain_detected (state_of hi) = false)
  /\ (local_role (state_of lo) = CLUSTER_ROLE_ACTIVE
      /\ split_brain_detected (state_of lo) = true)
  /\ (local_role (state_of eq) = CLUSTER_ROLE_ACTIVE
      /\ split_brain_detected (state_of eq) = true).
Proof.
  intros mk e hi lo eq.
  pose proof (serial_tie_break e (mk "SN2000" "SN1000")%string
                eq_refl eq_refl eq_refl) as Hhi.
  pose proof (serial_tie_break e (mk "SN1000" "SN2000")%string
                eq_refl eq_refl eq_refl) as Hlo.
  pose proof (serial_tie_break e (mk "SN1000" "SN1000")%string
                eq_refl eq_refl eq_refl) as Heq.
  cbv zeta in Hhi, Hlo, Heq.
  change (bytes_compare _ _) with Gt in Hhi.
  change (bytes_compare _ _) with Lt in Hlo.
  change (bytes_compare _ _) with Eq in Heq.
  destruct Hhi as (H1 & H2 & _), Hlo as (H3 & H4 & _), Heq as (H5 & H6 & _).
  repeat split; assumption.
Defined.

(** C7 (resolver called twice), as the code has it.  With the same
    uptime readings, a second call of the resolver right after the first
    leaves the state the first call produced and makes the same
    collaborator calls as the first.  When the local node is not the one
    to demote, neither call touches the state or the Role Actuator.  When
    it is, the second call takes the demotion branch again: the role is
    STANDBY as before and the release path is called once more. *)
Theorem resolver_twice :
  forall (e : env) (s : cluster_state_t),
    let r1 := cluster_auto_resolve_split_brain e s in
    let r2 := cluster_auto_resolve_split_brain e (state_of r1) in
    state_of r2 = state_of r1
    /\ trace_of r2 = trace_of r1
    /\ result_of r2 = result_of r1
    /\ (if should_demote e s
        then local_role (state_of r2) = CLUSTER_ROLE_STANDBY
             /\ split_brain_detected (state_of r2) = false
             /\ actuator_calls (trace_of r1) = release_path
             /\ actuator_calls (trace_of r2) = release_path
        else state_of r2 = s
             /\ actuator_calls (trace_of r1) = []
             /\ actuator_calls (trace_of r2) = []).
Proof.
  intros e s r1 r2. subst r1 r2.
  rewrite (auto_resolve_closed e s).
  destruct (should_demote e s) eqn:Hd; simpl_state;
    rewrite auto_resolve_closed;
    [rewrite should_demote_frame |]; rewrite Hd; simpl_state;
    split_all; reflexivity.
Qed.

(** The node with the higher serial releases its resources on the first
    call and again on the second. *)
Lemma resolver_twice_counterexample :
  let s := mkCluster CLUSTER_ROLE_ACTIVE CLUSTER_ROLE_ACTIVE true 0 0 7
             (strncpy (zeroed SERIAL_SIZE) (serial "SN2000") (SERIAL_SIZE - 1))
             (strncpy (zeroed SERIAL_SIZE) (serial "SN1000") (SERIAL_SIZE - 1))
             true true ELECTION_PRIORITY_SERIAL in
  let e := mkEnv 0 0 0 in
  let r1 := cluster_auto_resolve_split_brain e s in
  let r2 := cluster_auto_resolve_split_brain e (state_of r1) in
  actuator_calls (trace_of r1) = release_path
  /\ actuator_calls (trace_of r2) = release_path
  /\ calls is_release_vips (trace_of r1 ++ trace_of r2) = 2%nat
  /\ calls is_flush_mac (trace_of r1 ++ trace_of r2) = 2%nat.
Proof. repeat split; reflexivity. Qed.

(* ================================================================== *)
(** ** Heartbeat loss *)
(* ================================================================== *)

(** The tick that declares the heartbeat lost on a STANDBY node, on any
    value of the state structure: the liveness block promotes the node and
    calls the activation path once; the split-brain block that follows
    hands over to the resolver only where [auto_recovery_enabled] is
    set. *)
Lemma failover_promotion :
  forall (e : env) (s : cluster_state_t),
    local_role s = CLUSTER_ROLE_STANDBY ->
    heartbeat_up s = true ->
    difftime (time_now e) (last_heartbeat_rx s) * 1000 > HEARTBEAT_TIMEOUT_MS ->
    let r := cluster_heartbeat_tick e s in
    let demoted :=
      (peer_role s =? CLUSTER_ROLE_ACTIVE)
      && negb (split_brain_detected s)
      && auto_recovery_enabled s
      && should_demote e s in
    heartbeat_up (state_of r) = false
    /\ local_role (state_of (tick_liveness e s)) = CLUSTER_ROLE_ACTIVE
    /\ calls is_activate_vips (trace_of r) = 1%nat
    /\ calls is_activate_mac (trace_of r) = 1%nat
    /\ actuator_calls (trace_of r)
       = activation_path ++ (if demoted then release_path else [])
    /\ local_role (state_of r)
       = (if demoted then CLUSTER_ROLE_STANDBY else CLUSTER_ROLE_ACTIVE).
Proof.
  intros e s Hrole Hup Helapsed r demoted. subst r demoted.
  assert (Hgt : (difftime (time_now e) (last_heartbeat_rx s) * 1000
                 >? HEARTBEAT_TIMEOUT_MS) = true)
    by (rewrite Z.gtb_ltb; apply Z.ltb_lt; lia).
  tick_paths e s;
    try (rewrite Hup, Hgt in Hlost; discriminate Hlost);
    try (rewrite Hrole in Hstandby; discriminate Hstandby);
    split_all; reflexivity.
Qed.

(** The same tick on a structure in which automatic recovery has been
    switched on, which no operation of this file does: the node with the
    higher serial is promoted and demoted again. *)
Example failover_promotion_with_recovery :
  let s := mkCluster CLUSTER_ROLE_STANDBY CLUSTER_ROLE_ACTIVE true 100 100 7
             (strncpy (zeroed SERIAL_SIZE) (serial "SN2000") (SERIAL_SIZE - 1))
             (strncpy (zeroed SERIAL_SIZE) (serial "SN1000") (SERIAL_SIZE - 1))
             false true ELECTION_PRIORITY_SERIAL in
  let r := cluster_heartbeat_tick (mkEnv 104 0 0) s in
  local_role (state_of r) = CLUSTER_ROLE_STANDBY
  /\ actuator_calls (trace_of r) = activation_path ++ release_path.
Proof. split; reflexivity. Qed.

(** C3 (failover promotion).  In every state the operations produce with
    [local_role] STANDBY and [heartbeat_up] true, a tick made more than
    3000 ms after [last_heartbeat_rx] sets [heartbeat_up] to false, sets
    [local_role] to ACTIVE and calls the activation path exactly once; it
    calls nothing else of the Role Actuator. *)
Theorem failover_promotion_reachable :
  forall (e : env) (s : cluster_state_t),
    reachable s ->
    local_role s = CLUSTER_ROLE_STANDBY ->
    heartbeat_up s = true ->
    difftime (time_now e) (last_heartbeat_rx s) * 1000 > HEARTBEAT_TIMEOUT_MS ->
    let r := cluster_heartbeat_tick e s in
    heartbeat_up (state_of r) = false
    /\ local_role (state_of r) = CLUSTER_ROLE_ACTIVE
    /\ calls is_activate_vips (trace_of r) = 1%nat
    /\ calls is_activate_mac (trace_of r) = 1%nat
    /\ actuator_calls (trace_of r) = activation_path.
Proof.
  intros e s Hreach Hrole Hup Helapsed r. subst r.
  pose proof (reachable_recovery_off s Hreach) as Hoff.
  destruct (failover_promotion e s Hrole Hup Helapsed)
    as (H1 & _ & H3 & H4 & H5 & H6).
  rewrite Hoff, andb_false_r in H5, H6. cbn [andb] in H5, H6.
  rewrite app_nil_r in H5.
  split_all; assumption.
Qed.

Lemma failover_promotion_reachable_witness :
  let hb := mkMsg 7 CLUSTER_ROLE_ACTIVE (serial "SN1000") 100 in
  let s := state_of (run [OpForceRole CLUSTER_ROLE_STANDBY;
                          OpReceived (mkEnv 100 0 0) hb]
                       (state_of (cluster_state_init 7 (serial "SN2000")
                                    zero_state))) in
  let e := mkEnv 104 0 0 in
  let r := cluster_heartbeat_tick e s in
  reachable s
  /\ difftime (time_now e) (last_heartbeat_rx s) * 1000 > HEARTBEAT_TIMEOUT_MS
  /\ heartbeat_up (state_of r) = false
  /\ local_role (state_of r) = CLUSTER_ROLE_ACTIVE
  /\ calls is_activate_vips (trace_of r) = 1%nat.
Proof.
  intros hb s e r.
  assert (Hreach : reachable s).
  { exists 7, (serial "SN2000"), zero_state,
      [OpForceRole CLUSTER_ROLE_STANDBY; OpReceived (mkEnv 100 0 0) hb].
    reflexivity. }
  assert (Ht : difftime (time_now e) (last_heartbeat_rx s) * 1000
               > HEARTBEAT_TIMEOUT_MS) by reflexivity.
  destruct (failover_promotion_reachable e s Hreach eq_refl eq_refl Ht)
    as (H1 & H2 & H3 & _).
  split; [exact Hreach |]. split; [exact Ht |].
  split; [exact H1 |]. split; [exact H2 | exact H3].
Defined.

(** One tick on a node whose heartbeat is already down. *)
Lemma tick_heartbeat_down e s :
  heartbeat_up s = false ->
  let r := cluster_heartbeat_tick e s in
  heartbeat_up (state_of r) = false
  /\ calls is_activate_vips (trace_of r) = 0%nat
  /\ calls is_activate_mac (trace_of r) = 0%nat
  /\ local_role (state_of r)
     = (if both_active s && negb (split_brain_detected s)
           && auto_recovery_enabled s && should_demote e s
        then CLUSTER_ROLE_STANDBY else local_role s).
Proof.
  intros Hdown. cbv zeta.
  tick_paths e s;
    try (rewrite Hdown in Hlost; discriminate Hlost);
    split_all; first [assumption | reflexivity].
Qed.

Lemma ticks_heartbeat_down n :
  forall clock s,
    heartbeat_up s = false ->
    local_role s <> CLUSTER_ROLE_ACTIVE ->
    let r := run (ticks clock n) s in
    heartbeat_up (state_of r) = false
    /\ local_role (state_of r) = local_role s
    /\ calls is_activate_vips (trace_of r) = 0%nat
    /\ calls is_activate_mac (trace_of r) = 0%nat.
Proof.
  induction n as [| n IH]; intros clock s Hdown Hrole; cbv zeta.
  - simpl. auto.
  - cbn [ticks]. rewrite run_cons. cbn [step]. simpl_state.
    destruct (tick_heartbeat_down (clock O) s Hdown) as (H1 & H2 & H3 & H4).
    assert (Hb : both_active s = false).
    { unfold both_active. destruct (Z.eqb_spec (local_role s) CLUSTER_ROLE_ACTIVE);
        [contradiction | reflexivity]. }
    rewrite Hb in H4. cbn [andb] in H4.
    destruct (IH (fun i => clock (S i)) _ H1) as (K1 & K2 & K3 & K4).
    { now rewrite H4. }
    rewrite !calls_app. rewrite H2, H3, K1, K2, K3, K4, H4. auto.
Qed.

(** A tick with the heartbeat already down, on any value of the state
    structure: nothing is activated; the role changes only where
    [auto_recovery_enabled] is set and the resolver demotes the node. *)
Lemma tick_without_heartbeat :
  forall (e : env) (s : cluster_state_t) (clock : nat -> env) (n : nat),
    heartbeat_up s = false ->
    let r := cluster_heartbeat_tick e s in
    let demoted :=
      both_active s && negb (split_brain_detected s)
      && auto_recovery_enabled s && should_demote e s in
    heartbeat_up (state_of r) = false
    /\ calls is_activate_vips (trace_of r) = 0%nat
    /\ calls is_activate_mac (trace_of r) = 0%nat
    /\ local_role (state_of r)
       = (if demoted then CLUSTER_ROLE_STANDBY else local_role s)
    /\ (local_role s = CLUSTER_ROLE_STANDBY ->
        let rn := run (ticks clock n) s in
        local_role (state_of rn) = CLUSTER_ROLE_STANDBY
        /\ heartbeat_up (state_of rn) = false
        /\ calls is_activate_vips (trace_of rn) = 0%nat
        /\ calls is_activate_mac (trace_of rn) = 0%nat).
Proof.
  intros e s clock n Hdown r demoted. subst r demoted.
  destruct (tick_heartbeat_down e s Hdown) as (H1 & H2 & H3 & H4).
  split_all; try assumption.
  intros Hstandby. cbv zeta.
  destruct (ticks_heartbeat_down n clock s Hdown) as (K1 & K2 & K3 & K4).
  { rewrite Hstandby. discriminate. }
  rewrite K2. auto.
Qed.

(** The same tick on a structure in which automatic recovery has been
    switched on, which no operation of this file does. *)
Example tick_without_heartbeat_with_recovery :
  let s := mkCluster CLUSTER_ROLE_ACTIVE CLUSTER_ROLE_ACTIVE false 100 100 7
             (strncpy (zeroed SERIAL_SIZE) (serial "SN2000") (SERIAL_SIZE - 1))
             (strncpy (zeroed SERIAL_SIZE) (serial "SN1000") (SERIAL_SIZE - 1))
             false true ELECTION_PRIORITY_SERIAL in
  local_role (state_of (cluster_heartbeat_tick (mkEnv 101 0 0) s))
  = CLUSTER_ROLE_STANDBY.
Proof. reflexivity. Qed.

Lemma tick_recovery_off e s :
  auto_recovery_enabled s = false ->
  auto_recovery_enabled (state_of (cluster_heartbeat_tick e s)) = false.
Proof.
  intro H. destruct (tick_frame e s) as (_ & _ & _ & Hauto & _).
  now rewrite Hauto.
Qed.

Lemma tick_down_recovery_off e s :
  heartbeat_up s = false ->
  auto_recovery_enabled s = false ->
  let r := cluster_heartbeat_tick e s in
  heartbeat_up (state_of r) = false
  /\ local_role (state_of r) = local_role s
  /\ calls is_activate_vips (trace_of r) = 0%nat
  /\ calls is_activate_mac (trace_of r) = 0%nat.
Proof.
  intros Hdown Hoff. cbv zeta.
  destruct (tick_heartbeat_down e s Hdown) as (H1 & H2 & H3 & H4).
  rewrite Hoff, andb_false_r in H4. cbn [andb] in H4.
  split_all; assumption.
Qed.

Lemma ticks_down_recovery_off n :
  forall clock s,
    heartbeat_up s = false ->
    auto_recovery_enabled s = false ->
    let r := run (ticks clock n) s in
    heartbeat_up (state_of r) = false
    /\ local_role (state_of r) = local_role s
    /\ calls is_activate_vips (trace_of r) = 0%nat
    /\ calls is_activate_mac (trace_of r) = 0%nat.
Proof.
  induction n as [| n IH]; intros clock s Hdown Hoff; cbv zeta.
  - simpl. auto.
  - cbn [ticks]. rewrite run_cons. cbn [step]. simpl_state.
    destruct (tick_down_recovery_off (clock O) s Hdown Hoff)
      as (H1 & H2 & H3 & H4).
    destruct (IH (fun i => clock (S i)) _ H1 (tick_recovery_off _ _ Hoff))
      as (K1 & K2 & K3 & K4).
    rewrite !calls_app. rewrite H3, H4, K1, K2, K3, K4, H2. auto.
Qed.

(** C10 (heartbeat loss is edge-triggered).  In every state the
    operations produce with [heartbeat_up] already false, a tick leaves
    [local_role] as it is and does not call the activation path, whatever
    the clock reads, and [heartbeat_up] stays false; the same holds
    through any number of consecutive ticks.  In particular a node put in
    STANDBY after the initialisation, which has received no heartbeat, is
    still STANDBY after any number of ticks, none of which activates
    anything. *)
Theorem tick_without_heartbeat_reachable :
  forall (e : env) (s : cluster_state_t) (clock : nat -> env) (n : nat)
         (id : Z) (src : list byte) (s0 : cluster_state_t),
    reachable s ->
    heartbeat_up s = false ->
    let r := cluster_heartbeat_tick e s in
    let rn := run (ticks clock n) s in
    let rs := run (OpForceRole CLUSTER_ROLE_STANDBY :: ticks clock n)
                (state_of (cluster_state_init id src s0)) in
    (local_role (state_of r) = local_role s
     /\ heartbeat_up (state_of r) = false
     /\ calls is_activate_vips (trace_of r) = 0%nat
     /\ calls is_activate_mac (trace_of r) = 0%nat)
    /\ (local_role (state_of rn) = local_role s
        /\ heartbeat_up (state_of rn) = false
        /\ calls is_activate_vips (trace_of rn) = 0%nat
        /\ calls is_activate_mac (trace_of rn) = 0%nat)
    /\ (local_role (state_of rs) = CLUSTER_ROLE_STANDBY
        /\ heartbeat_up (state_of rs) = false
        /\ calls is_activate_vips (trace_of rs) = 0%nat
        /\ calls is_activate_mac (trace_of rs) = 0%nat).
Proof.
  intros e s clock n id src s0 Hreach Hdown r rn rs. subst r rn rs.
  pose proof (reachable_recovery_off s Hreach) as Hoff.
  destruct (tick_down_recovery_off e s Hdown Hoff) as (H1 & H2 & H3 & H4).
  destruct (ticks_down_recovery_off n clock s Hdown Hoff)
    as (K1 & K2 & K3 & K4).
  split; [auto |]. split; [auto |].
  rewrite run_cons. cbn [step]. simpl_state.
  rewrite force_role_closed, init_closed. simpl_state.
  set (s1 := set_split_brain_detected false _).
  destruct (ticks_down_recovery_off n clock s1 eq_refl eq_refl)
    as (L1 & L2 & L3 & L4).
  rewrite !calls_app, L1, L2, L3, L4. repeat split.
Qed.

Lemma tick_without_heartbeat_reachable_witness :
  let s := state_of (run [OpForceRole CLUSTER_ROLE_ACTIVE]
                       (state_of (cluster_state_init 7 (serial "SN2000")
                                    zero_state))) in
  let clock := fun i : nat => mkEnv (1000 * Z.of_nat i) 0 0 in
  let rn := run (ticks clock 5) s in
  reachable s
  /\ heartbeat_up s = false
  /\ local_role (state_of rn) = CLUSTER_ROLE_ACTIVE
  /\ calls is_activate_vips (trace_of rn) = 0%nat.
Proof.
  intros s clock rn.
  assert (Hreach : reachable s).
  { exists 7, (serial "SN2000"), zero_state, [OpForceRole CLUSTER_ROLE_ACTIVE].
    reflexivity. }
  assert (Hdown : heartbeat_up s = false) by reflexivity.
  destruct (tick_without_heartbeat_reachable (clock O) s clock 5
              7 (serial "SN2000") zero_state Hreach Hdown)
    as (_ & (K1 & _ & K3 & _) & _).
  split; [exact Hreach |]. split; [exact Hdown |].
  split; [exact K1 | exact K3].
Defined.

(* ================================================================== *)
(** ** The split-brain flag *)
(* ================================================================== *)

Lemma pending_nil : ~ pending [].
Proof.
  intros (before & after & H & _). destruct before; discriminate H.
Qed.

Lemma pending_seen h : pending (h ++ [DualActiveSeen]).
Proof. exists h, []. split; [reflexivity | constructor]. Qed.

Lemma pending_cleared h m : m <> DualActiveSeen -> ~ pending (h ++ [m]).
Proof.
  intros Hm (before & after & H & Hafter).
  destruct (@exists_last _ (DualActiveSeen :: after)) as (l & a & Hla);
    [discriminate |].
  assert (Ha : a = DualActiveSeen).
  { assert (Hin : In a (DualActiveSeen :: after))
      by (rewrite Hla; apply in_or_app; right; left; reflexivity).
    destruct Hin as [Hin | Hin]; [now symmetry |].
    rewrite Forall_forall in Hafter. now apply Hafter. }
  rewrite Hla, app_assoc in H.
  apply app_inj_tail in H. destruct H as [_ H]. congruence.
Qed.

Lemma pending_resolved h : ~ pending (h ++ [DualActiveSeen; Resolved]).
Proof.
  change (h ++ [DualActiveSeen; Resolved])
    with (h ++ [DualActiveSeen] ++ [Resolved]).
  rewrite app_assoc. apply pending_cleared. discriminate.
Qed.

Lemma step_pending o s h :
  (split_brain_detected s = true <-> pending h) ->
  (split_brain_detected (state_of (step o s)) = true
   <-> pending (h ++ marks_of o s)).
Proof.
  intros Hinv. destruct o as [e | e msg | role | status].
  - cbn [step marks_of].
    tick_paths e s; cbn [existsb is_release_vips app orb];
      rewrite ?app_nil_r, ?Hflag; try rewrite Hflag in Hinv;
      try exact Hinv;
      try (split; [intros _; apply pending_seen | reflexivity]);
      try (split; [discriminate | intros H; now apply pending_resolved in H]).
  - cbn [step marks_of]. rewrite received_closed, app_nil_r. exact Hinv.
  - cbn [step marks_of]. rewrite force_role_closed. simpl_state.
    split; [discriminate |].
    intros H. apply pending_cleared in H; [contradiction | discriminate].
  - rewrite step_get_status. cbn [marks_of]. rewrite app_nil_r. exact Hinv.
Qed.

Lemma run_pending ops :
  forall s h,
    (split_brain_detected s = true <-> pending h) ->
    (split_brain_detected (state_of (run ops s)) = true
     <-> pending (h ++ history ops s)).
Proof.
  induction ops as [| o rest IH]; intros s h Hinv.
  - simpl. now rewrite app_nil_r.
  - rewrite run_cons. cbn [history]. simpl_state.
    rewrite app_assoc. apply IH. now apply step_pending.
Qed.

Lemma tick_detection e s :
  let r := cluster_heartbeat_tick e s in
  (existsb is_crit (trace_of r) = true
   <-> split_brain_detected s = false
       /\ both_active (state_of (tick_liveness e s)) = true)
  /\ (split_brain_detected s = true ->
      split_brain_detected (state_of r) = true
      /\ actuator_calls (trace_of r)
         = actuator_calls (trace_of (tick_liveness e s))).
Proof.
  cbv zeta.
  tick_paths e s; cbn; split;
    try (intros _; split; reflexivity);
    try discriminate;
    try (split; [discriminate | intros [? ?]; discriminate]);
    try (split; [reflexivity | intros _; split; reflexivity]);
    try (split; intros; auto; fail).
Qed.

Lemma tick_sets_flag e s :
  split_brain_detected s = false ->
  split_brain_detected (state_of (cluster_heartbeat_tick e s)) = true ->
  both_active (state_of (tick_liveness e s)) = true.
Proof.
  intros Hclear.
  tick_paths e s; rewrite ?Hflag; try discriminate; auto.
Qed.

(** C4 (split-brain flag).  Along every run that starts with the flag
    clear, [split_brain_detected] is true exactly when some tick found
    both roles ACTIVE at its split-brain check and no self-demotion by
    the resolver and no operator override came after it.  Detection is
    edge-triggered: a tick logs the detection exactly when the flag is
    clear and both roles are ACTIVE at its check, and a tick turns the
    flag from false to true only then. *)
Theorem split_brain_flag_history :
  forall (s0 : cluster_state_t) (ops : list op)
         (e : env) (s : cluster_state_t),
    split_brain_detected s0 = false ->
    (split_brain_detected (state_of (run ops s0)) = true
     <-> pending (history ops s0))
    /\ (existsb is_crit (trace_of (cluster_heartbeat_tick e s)) = true
        <-> split_brain_detected s = false
            /\ both_active (state_of (tick_liveness e s)) = true)
    /\ (split_brain_detected s = false ->
        split_brain_detected (state_of (cluster_heartbeat_tick e s)) = true ->
        both_active (state_of (tick_liveness e s)) = true).
Proof.
  intros s0 ops e s H0. split; [| split].
  - change (history ops s0) with ([] ++ history ops s0).
    apply run_pending. rewrite H0. split; [discriminate |].
    intros H. now apply pending_nil in H.
  - apply tick_detection.
  - apply tick_sets_flag.
Qed.

Lemma split_brain_flag_history_witness :
  let s0 := state_of (cluster_state_init 7 (serial "SN1000") zero_state) in
  let e := mkEnv 100 0 0 in
  let ops := [OpForceRole CLUSTER_ROLE_ACTIVE;
              OpReceived e (mkMsg 7 CLUSTER_ROLE_ACTIVE (serial "SN2000") 100);
              OpTick e;
              OpGetStatus None] in
  split_brain_detected s0 = false
  /\ split_brain_detected (state_of (run ops s0)) = true
  /\ pending (history ops s0).
Proof.
  intros s0 e ops.
  assert (H0 : split_brain_detected s0 = false) by reflexivity.
  destruct (split_brain_flag_history s0 ops e s0 H0) as [[Hto _] _].
  split; [exact H0 |].
  split; [reflexivity | apply Hto; reflexivity].
Defined.

(* ================================================================== *)
(** ** Operator override *)
(* ================================================================== *)

(** C5 (operator override).  From every state, [cluster_force_role]
    called with ACTIVE or STANDBY returns 0, calls the matching path of
    the Role Actuator (the release path for STANDBY, the activation path
    for ACTIVE) whatever the role was, stores the requested role in
    [local_role] and clears [split_brain_detected] whatever its value
    was; no other field changes. *)
Theorem force_role_override :
  forall (s : cluster_state_t) (role : Z),
    role = CLUSTER_ROLE_ACTIVE \/ role = CLUSTER_ROLE_STANDBY ->
    let r := cluster_force_role role s in
    result_of r = 0
    /\ local_role (state_of r) = role
    /\ split_brain_detected (state_of r) = false
    /\ actuator_calls (trace_of r)
       = (if role =? CLUSTER_ROLE_STANDBY then release_path
          else activation_path)
    /\ state_of r = set_split_brain_detected false (set_local_role role s).
Proof.
  intros s role Hrole r. subst r. rewrite force_role_closed.
  destruct Hrole as [-> | ->]; repeat split; reflexivity.
Qed.

Lemma force_role_override_witness :
  let s := set_split_brain_detected true
             (set_peer_role CLUSTER_ROLE_ACTIVE
                (set_local_role CLUSTER_ROLE_ACTIVE zero_state)) in
  let r := cluster_force_role CLUSTER_ROLE_STANDBY s in
  local_role (state_of r) = CLUSTER_ROLE_STANDBY
  /\ split_brain_detected (state_of r) = false
  /\ actuator_calls (trace_of r) = release_path.
Proof.
  intros s r.
  destruct (force_role_override s CLUSTER_ROLE_STANDBY (or_intror eq_refl))
    as (_ & H1 & H2 & H3 & _).
  exact (conj H1 (conj H2 H3)).
Defined.

(* ================================================================== *)
(** ** The receiver *)
(* ================================================================== *)

(** C6 (receiver frame condition).  On a state whose serial buffers are
    as [cluster_state_init] and the operations leave them (32 bytes, the
    last one NUL), [cluster_heartbeat_received] sets [last_heartbeat_rx]
    to the current time, [heartbeat_up] to true, [peer_role] to the
    sender's role and the string in [peer_serial] to the first 31 bytes
    of the sender's serial.  Every other field keeps its value, in
    particular [local_role] and [split_brain_detected], and the Role
    Actuator is not called. *)
Theorem received_frame :
  forall (s : cluster_state_t) (e : env) (msg : heartbeat_msg_t),
    serial_buffers s ->
    let s' := state_of (cluster_heartbeat_received e msg s) in
    last_heartbeat_rx s' = time_now e
    /\ heartbeat_up s' = true
    /\ peer_role s' = sender_role msg
    /\ cstr (peer_serial s')
       = firstn (SERIAL_SIZE - 1) (cstr (sender_serial msg))
    /\ local_role s' = local_role s
    /\ split_brain_detected s' = split_brain_detected s
    /\ last_heartbeat_tx s' = last_heartbeat_tx s
    /\ cluster_id s' = cluster_id s
    /\ local_serial s' = local_serial s
    /\ auto_recovery_enabled s' = auto_recovery_enabled s
    /\ election_policy s' = election_policy s
    /\ serial_buffers s'
    /\ actuator_calls (trace_of (cluster_heartbeat_received e msg s)) = [].
Proof.
  intros s e msg [Hl Hp] s'. subst s'. rewrite received_closed.
  destruct (strncpy_serial_buffer (peer_serial s) (sender_serial msg) Hp)
    as [Hbuf Hstr].
  simpl_state. split_all; try reflexivity; try assumption.
  - split; assumption.
  - destruct (split_brain_detected s); reflexivity.
Qed.

Lemma received_frame_witness :
  let s := state_of (cluster_state_init 7 (serial "SN2000") zero_state) in
  let msg := mkMsg 7 CLUSTER_ROLE_ACTIVE
               (serial "SN1000-0123456789-0123456789-0123456789") 100 in
  let s' := state_of (cluster_heartbeat_received (mkEnv 100 0 0) msg s) in
  serial_buffers s
  /\ cstr (peer_serial s') = serial "SN1000-0123456789-0123456789-01"
  /\ local_role s' = local_role s.
Proof.
  intros s msg s'.
  assert (Hs : serial_buffers s) by (repeat split; reflexivity).
  destruct (received_frame s (mkEnv 100 0 0) msg Hs)
    as (_ & _ & _ & H4 & H5 & _).
  split; [exact Hs |].
  split; [exact H4 | exact H5].
Defined.

(** C9 (cluster identity is not checked on receive).  A heartbeat whose
    [cluster_id] differs from the stored one is accepted like any other:
    the call returns 0, refreshes liveness, and takes over the sender's
    role and serial (the 31 bytes that [strncpy] writes hold the sender's
    serial, truncated).  The outcome is the one of the same message
    carrying the node's own cluster id. *)
Theorem received_ignores_cluster_id :
  forall (s : cluster_state_t) (e : env) (msg : heartbeat_msg_t),
    msg_cluster_id msg <> cluster_id s ->
    let r := cluster_heartbeat_received e msg s in
    result_of r = 0
    /\ heartbeat_up (state_of r) = true
    /\ last_heartbeat_rx (state_of r) = time_now e
    /\ peer_role (state_of r) = sender_role msg
    /\ cstr (firstn (SERIAL_SIZE - 1) (peer_serial (state_of r)))
       = firstn (SERIAL_SIZE - 1) (cstr (sender_serial msg))
    /\ cluster_id (state_of r) = cluster_id s
    /\ r = cluster_heartbeat_received e
             (mkMsg (cluster_id s) (sender_role msg) (sender_serial msg)
                    (timestamp msg)) s.
Proof.
  intros s e msg _ r. subst r. rewrite !received_closed.
  simpl_state. split_all; try reflexivity.
  apply strncpy_window.
Qed.

Lemma received_ignores_cluster_id_witness :
  let s := state_of (cluster_state_init 7 (serial "SN2000") zero_state) in
  let msg := mkMsg 8 CLUSTER_ROLE_ACTIVE (serial "SN1000") 100 in
  let r := cluster_heartbeat_received (mkEnv 100 0 0) msg s in
  msg_cluster_id msg <> cluster_id s
  /\ heartbeat_up (state_of r) = true
  /\ peer_role (state_of r) = CLUSTER_ROLE_ACTIVE.
Proof.
  intros s msg r.
  assert (Hid : msg_cluster_id msg <> cluster_id s) by (vm_compute; discriminate).
  destruct (received_ignores_cluster_id s (mkEnv 100 0 0) msg Hid)
    as (_ & H2 & _ & H4 & _).
  split; [exact Hid |].
  split; [exact H2 | exact H4].
Defined.

(* ================================================================== *)
(** ** Return codes and the status snapshot *)
(* ================================================================== *)




(** The call writes all but the last byte of each destination array: a
    destination that was not zeroed keeps its own last byte, which then
    follows a serial of full length. *)
Example get_status_keeps_last_byte :
  let s := state_of (cluster_state_init 7
             (serial "SN1000-0123456789-0123456789-01") zero_state) in
  let d := mkStatus 0 0 0 false false 0 (repeat "X"%byte 32)
                    (repeat "X"%byte 32) in
  exists d',
    snd (result_of (cluster_get_status (Some d) s)) = Some d'
    /\ cstr (firstn 31 (status_local_serial d')) = cstr (local_serial s)
    /\ nth 31 (status_local_serial d') NUL = "X"%byte
    /\ strlen (status_local_serial d') = 32%nat.
Proof.
  eexists. split; [reflexivity |]. repeat split.
Qed.

(* ================================================================== *)
(** ** Scenarios *)
(* ================================================================== *)

(** Election tie-break, SerialNumber policy: the higher serial yields. *)
Example tie_break_higher_serial_demotes :
  let r := cluster_heartbeat_tick (mkEnv 101 0 0)
             (dual_active "SN2000" "SN1000" true) in
  local_role (state_of r) = CLUSTER_ROLE_STANDBY
  /\ split_brain_detected (state_of r) = false
  /\ actuator_calls (trace_of r) = release_path.
Proof. repeat split. Qed.

Example tie_break_lower_serial_stays :
  let r := cluster_heartbeat_tick (mkEnv 101 0 0)
             (dual_active "SN1000" "SN2000" true) in
  local_role (state_of r) = CLUSTER_ROLE_ACTIVE
  /\ split_brain_detected (state_of r) = true
  /\ actuator_calls (trace_of r) = [].
Proof. repeat split. Qed.

(** Equal serials: no role change, on the tick that detects the
    condition and on the next one; the flag remains set. *)
Example tie_break_equal_serials :
  let r := run [OpTick (mkEnv 101 0 0); OpTick (mkEnv 102 0 0)]
             (dual_active "SN1000" "SN1000" true) in
  local_role (state_of r) = CLUSTER_ROLE_ACTIVE
  /\ split_brain_detected (state_of r) = true
  /\ actuator_calls (trace_of r) = []
  /\ calls is_crit (trace_of r) = 1%nat.
Proof. repeat split. Qed.

(** Without automatic recovery the condition is flagged and logged once,
    and nothing else happens. *)
Example detection_without_recovery :
  let r := run [OpTick (mkEnv 101 0 0); OpTick (mkEnv 102 0 0)]
             (dual_active "SN2000" "SN1000" false) in
  local_role (state_of r) = CLUSTER_ROLE_ACTIVE
  /\ split_brain_detected (state_of r) = true
  /\ calls is_crit (trace_of r) = 1%nat
  /\ history [OpTick (mkEnv 101 0 0); OpTick (mkEnv 102 0 0)]
       (dual_active "SN2000" "SN1000" false)
     = [DualActiveSeen; DualActiveSeen].
Proof. repeat split. Qed.

(** A standby node takes over when the heartbeats stop: three silent
    seconds are not enough, the fourth is; later ticks change nothing. *)
Example standby_takes_over :
  let msg := mkMsg 7 CLUSTER_ROLE_ACTIVE (serial "SN1000") 100 in
  let s0 := state_of (cluster_state_init 7 (serial "SN2000") zero_state) in
  let before := run [OpForceRole CLUSTER_ROLE_STANDBY;
                     OpReceived (mkEnv 100 0 0) msg;
                     OpTick (mkEnv 101 0 0);
                     OpTick (mkEnv 103 0 0)] s0 in
  let after := run [OpTick (mkEnv 104 0 0); OpTick (mkEnv 105 0 0)]
                 (state_of before) in
  local_role (state_of before) = CLUSTER_ROLE_STANDBY
  /\ heartbeat_up (state_of before) = true
  /\ local_role (state_of after) = CLUSTER_ROLE_ACTIVE
  /\ heartbeat_up (state_of after) = false
  /\ actuator_calls (trace_of after) = activation_path
  /\ split_brain_detected (state_of after) = true.
Proof. repeat split. Qed.

(* ================================================================== *)
(** ** Initialisation and what no operation changes *)
(* ================================================================== *)

Lemma strncpy_zeroed_serial src :
  cstr (strncpy (zeroed SERIAL_SIZE) src (SERIAL_SIZE - 1))
  = firstn (SERIAL_SIZE - 1) (cstr src).
Proof. apply strncpy_serial_buffer, zeroed_serial_buffer. Qed.

(** X1 (initialisation is a full reset).  [cluster_state_init] returns 0
    and its outcome does not depend on the state it finds: both roles are
    INIT, the heartbeat is down, the split-brain flag and automatic
    recovery are off, the policy is SerialNumber, both timestamps are 0
    and the peer serial is empty.  The local serial is the first 31 bytes
    of the string passed in, in a 32-byte buffer that ends in NUL. *)
Theorem init_full_reset :
  forall (id : Z) (src : list byte) (s s' : cluster_state_t),
    let r := cluster_state_init id src s in
    r = cluster_state_init id src s'
    /\ result_of r = 0
    /\ local_role (state_of r) = CLUSTER_ROLE_INIT
    /\ peer_role (state_of r) = CLUSTER_ROLE_INIT
    /\ heartbeat_up (state_of r) = false
    /\ split_brain_detected (state_of r) = false
    /\ auto_recovery_enabled (state_of r) = false
    /\ election_policy (state_of r) = ELECTION_PRIORITY_SERIAL
    /\ last_heartbeat_rx (state_of r) = 0
    /\ last_heartbeat_tx (state_of r) = 0
    /\ cluster_id (state_of r) = id
    /\ cstr (local_serial (state_of r)) = firstn (SERIAL_SIZE - 1) (cstr src)
    /\ cstr (peer_serial (state_of r)) = []
    /\ serial_buffers (state_of r)
    /\ actuator_calls (trace_of r) = [].
Proof.
  intros id src s s' r. subst r.
  pose proof (init_serial_buffers id src s) as Hbuf.
  rewrite !init_closed in *. simpl_state.
  split_all; try reflexivity.
  - apply strncpy_zeroed_serial.
  - exact Hbuf.
Qed.

(** X2 (the configuration is frozen).  No sequence of ticks, received
    heartbeats, operator overrides and status queries changes
    [cluster_id], [local_serial], [auto_recovery_enabled] or
    [election_policy].  After [cluster_state_init], therefore, automatic
    recovery stays disabled, the policy stays SerialNumber and the node
    keeps the identity it was initialised with. *)
Theorem configuration_is_frozen :
  forall (id : Z) (src : list byte) (s0 s : cluster_state_t) (ops : list op),
    (cluster_id (state_of (run ops s)) = cluster_id s
     /\ local_serial (state_of (run ops s)) = local_serial s
     /\ auto_recovery_enabled (state_of (run ops s))
        = auto_recovery_enabled s
     /\ election_policy (state_of (run ops s)) = election_policy s)
    /\ let s1 := state_of (run ops (state_of (cluster_state_init id src s0))) in
       cluster_id s1 = id
       /\ cstr (local_serial s1) = firstn (SERIAL_SIZE - 1) (cstr src)
       /\ auto_recovery_enabled s1 = false
       /\ election_policy s1 = ELECTION_PRIORITY_SERIAL.
Proof.
  intros id src s0 s ops. split.
  - apply run_config.
  - cbv zeta.
    destruct (run_config ops (state_of (cluster_state_init id src s0)))
      as (H1 & H2 & H3 & H4).
    rewrite H1, H2, H3, H4. rewrite init_closed. simpl_state.
    split_all; try reflexivity. apply strncpy_zeroed_serial.
Qed.

(** X3 (serial buffers stay terminated).  After [cluster_state_init] and
    any sequence of operations, both serial buffers have 32 bytes, end in
    NUL, and hold strings of at most 31 bytes: no received serial,
    however long, leaves [peer_serial] without its terminator. *)
Theorem serials_stay_terminated :
  forall (id : Z) (src : list byte) (s0 : cluster_state_t) (ops : list op),
    let s := state_of (run ops (state_of (cluster_state_init id src s0))) in
    serial_buffers s
    /\ (strlen (local_serial s) <= 31)%nat
    /\ (strlen (peer_serial s) <= 31)%nat.
Proof.
  intros id src s0 ops s.
  assert (H : serial_buffers s)
    by (apply run_serial_buffers, init_serial_buffers).
  split; [exact H |].
  destruct H as [Hl Hp].
  split; [apply (serial_buffer_strlen _ Hl) | apply (serial_buffer_strlen _ Hp)].
Qed.

(* ================================================================== *)
(** ** Who calls the Role Actuator *)
(* ================================================================== *)

Lemma count_ops_cons p o ops :
  count_ops p (o :: ops)
  = ((if p o then 1 else 0) + count_ops p ops)%nat.
Proof. unfold count_ops. simpl. destruct (p o); reflexivity. Qed.

Lemma force_role_calls role s :
  let t := trace_of (cluster_force_role role s) in
  calls is_release_vips t
    = (if role =? CLUSTER_ROLE_STANDBY then 1%nat else 0%nat)
  /\ calls is_flush_mac t
    = (if role =? CLUSTER_ROLE_STANDBY then 1%nat else 0%nat)
  /\ calls is_activate_vips t
    = (if role =? CLUSTER_ROLE_ACTIVE then 1%nat else 0%nat)
  /\ calls is_activate_mac t
    = (if role =? CLUSTER_ROLE_ACTIVE then 1%nat else 0%nat)
  /\ calls is_resolver_entry t = 0%nat.
Proof.
  cbv zeta. rewrite force_role_closed. simpl_state.
  destruct (Z.eqb_spec role CLUSTER_ROLE_STANDBY) as [-> | Hs].
  - repeat split.
  - destruct (Z.eqb_spec role CLUSTER_ROLE_ACTIVE); repeat split.
Qed.

Lemma step_without_recovery o s :
  auto_recovery_enabled s = false ->
  let t := trace_of (step o s) in
  calls is_resolver_entry t = 0%nat
  /\ calls is_release_vips t
     = (if is_force CLUSTER_ROLE_STANDBY o then 1%nat else 0%nat)
  /\ calls is_flush_mac t
     = (if is_force CLUSTER_ROLE_STANDBY o then 1%nat else 0%nat).
Proof.
  intros Hoff. destruct o as [e | e msg | role | status]; cbv zeta.
  - cbn [step is_force].
    tick_paths e s; try congruence; repeat split.
  - cbn [step is_force]. rewrite received_closed. simpl_state.
    destruct (split_brain_detected s); repeat split.
  - cbn [step is_force].
    destruct (force_role_calls role s) as (H1 & H2 & _ & _ & H5). auto.
  - rewrite step_get_status. repeat split.
Qed.

(** X4 (the resolver needs automatic recovery).  From a state with
    [auto_recovery_enabled] off, in particular from the state
    [cluster_state_init] leaves, no sequence of operations enters the
    resolver, and the release path is called exactly once per operator
    override to STANDBY: a tick never releases resources. *)
Theorem release_only_by_override :
  forall (s : cluster_state_t) (ops : list op),
    auto_recovery_enabled s = false ->
    let t := trace_of (run ops s) in
    calls is_resolver_entry t = 0%nat
    /\ calls is_release_vips t = count_ops (is_force CLUSTER_ROLE_STANDBY) ops
    /\ calls is_flush_mac t = count_ops (is_force CLUSTER_ROLE_STANDBY) ops.
Proof.
  intros s ops; revert s.
  induction ops as [| o rest IH]; intros s Hoff; cbv zeta.
  - repeat split.
  - rewrite run_cons. simpl_state. rewrite !calls_app, count_ops_cons.
    destruct (step_without_recovery o s Hoff) as (H1 & H2 & H3).
    destruct (step_config o s) as (_ & _ & Hcfg & _).
    destruct (IH (state_of (step o s))) as (K1 & K2 & K3);
      [now rewrite Hcfg |].
    rewrite H1, H2, H3, K1, K2, K3. auto.
Qed.

Lemma release_only_by_override_witness :
  let s := state_of (cluster_state_init 7 (serial "SN2000") zero_state) in
  let hb := mkMsg 7 CLUSTER_ROLE_ACTIVE (serial "SN1000") 100 in
  let ops := [OpForceRole CLUSTER_ROLE_ACTIVE;
              OpReceived (mkEnv 100 0 0) hb;
              OpTick (mkEnv 101 0 0);
              OpForceRole CLUSTER_ROLE_STANDBY;
              OpTick (mkEnv 105 0 0)] in
  auto_recovery_enabled s = false
  /\ calls is_release_vips (trace_of (run ops s)) = 1%nat.
Proof.
  intros s hb ops.
  assert (Hoff : auto_recovery_enabled s = false) by reflexivity.
  destruct (release_only_by_override s ops Hoff) as (_ & H & _).
  split; [exact Hoff | exact H].
Defined.

Lemma step_heartbeat_down o s :
  heartbeat_up s = false ->
  is_receive o = false ->
  let r := step o s in
  heartbeat_up (state_of r) = false
  /\ calls is_activate_vips (trace_of r)
     = (if is_force CLUSTER_ROLE_ACTIVE o then 1%nat else 0%nat)
  /\ calls is_activate_mac (trace_of r)
     = (if is_force CLUSTER_ROLE_ACTIVE o then 1%nat else 0%nat).
Proof.
  intros Hdown Hrecv. destruct o as [e | e msg | role | status]; cbv zeta.
  - cbn [step is_force].
    destruct (tick_heartbeat_down e s Hdown) as (H1 & H2 & H3 & _). auto.
  - discriminate Hrecv.
  - cbn [step is_force].
    destruct (force_role_calls role s) as (_ & _ & H3 & H4 & _).
    rewrite force_role_closed in *. simpl_state. auto.
  - rewrite step_get_status. simpl_state. repeat split. exact Hdown.
Qed.

(** X5 (no promotion before the first heartbeat).  While [heartbeat_up]
    is false and no heartbeat is received, ticks, overrides and status
    queries leave it false, and the activation path is called exactly
    once per operator override to ACTIVE: a node that has never heard its
    peer is not promoted by the scheduler, whatever else happens. *)
Theorem activation_only_by_override :
  forall (s : cluster_state_t) (ops : list op),
    heartbeat_up s = false ->
    Forall (fun o => is_receive o = false) ops ->
    let r := run ops s in
    heartbeat_up (state_of r) = false
    /\ calls is_activate_vips (trace_of r)
       = count_ops (is_force CLUSTER_ROLE_ACTIVE) ops
    /\ calls is_activate_mac (trace_of r)
       = count_ops (is_force CLUSTER_ROLE_ACTIVE) ops.
Proof.
  intros s ops Hdown Hops; revert s Hdown.
  induction Hops as [| o rest Ho _ IH]; intros s Hdown; cbv zeta.
  - repeat split. exact Hdown.
  - rewrite run_cons. simpl_state. rewrite !calls_app, count_ops_cons.
    destruct (step_heartbeat_down o s Hdown Ho) as (H1 & H2 & H3).
    destruct (IH (state_of (step o s)) H1) as (K1 & K2 & K3).
    rewrite H2, H3, K1, K2, K3. auto.
Qed.

Lemma activation_only_by_override_witness :
  let s := state_of (cluster_state_init 7 (serial "SN2000") zero_state) in
  let ops := [OpForceRole CLUSTER_ROLE_STANDBY;
              OpTick (mkEnv 1000 0 0);
              OpGetStatus None;
              OpForceRole CLUSTER_ROLE_ACTIVE;
              OpTick (mkEnv 2000 0 0)] in
  heartbeat_up s = false
  /\ calls is_activate_vips (trace_of (run ops s)) = 1%nat.
Proof.
  intros s ops.
  assert (Hdown : heartbeat_up s = false) by reflexivity.
  assert (Hops : Forall (fun o => is_receive o = false) ops)
    by (repeat (apply Forall_cons; [reflexivity |]); apply Forall_nil).
  destruct (activation_only_by_override s ops Hdown Hops) as (_ & H & _).
  split; [exact Hdown | exact H].
Defined.

(* ================================================================== *)
(** ** The heartbeat a tick sends *)
(* ================================================================== *)

Lemma tick_sent e s :
  sent (trace_of (cluster_heartbeat_tick e s))
  = [mkMsg (cluster_id s)
       (local_role (state_of (cluster_heartbeat_tick e s)))
       (strncpy (zeroed SENDER_SERIAL_SIZE) (local_serial s)
          (SENDER_SERIAL_SIZE - 1))
       (time_now e)].
Proof. tick_paths e s; reflexivity. Qed.

Lemma sender_serial_of_buffer buf :
  serial_buffer buf ->
  cstr (strncpy (zeroed SENDER_SERIAL_SIZE) buf (SENDER_SERIAL_SIZE - 1))
  = cstr buf.
Proof.
  intro H. apply serial_buffer_strlen in H. unfold strlen in H.
  change SENDER_SERIAL_SIZE with SERIAL_SIZE.
  rewrite strncpy_zeroed_serial. now apply firstn_all2.
Qed.

(** X6 (one heartbeat per tick).  Every tick hands exactly one heartbeat
    to the transport and records the time in [last_heartbeat_tx].  The
    heartbeat carries the cluster id, the current time, the local serial
    and the role the node has at the end of the tick, that is after a
    promotion or a demotion made by the same tick. *)
Theorem tick_sends_one_heartbeat :
  forall (e : env) (s : cluster_state_t),
    serial_buffers s ->
    let r := cluster_heartbeat_tick e s in
    last_heartbeat_tx (state_of r) = time_now e
    /\ exists m : heartbeat_msg_t,
         sent (trace_of r) = [m]
         /\ msg_cluster_id m = cluster_id s
         /\ sender_role m = local_role (state_of r)
         /\ cstr (sender_serial m) = cstr (local_serial s)
         /\ timestamp m = time_now e.
Proof.
  intros e s [Hl _] r. subst r. split.
  - apply tick_frame.
  - eexists. split; [apply tick_sent |].
    cbn [msg_cluster_id sender_role sender_serial timestamp].
    split_all; try reflexivity.
    now apply sender_serial_of_buffer.
Qed.

Lemma tick_sends_one_heartbeat_witness :
  let s := mkCluster CLUSTER_ROLE_STANDBY CLUSTER_ROLE_INIT true 100 100 7
             (strncpy (zeroed SERIAL_SIZE) (serial "SN2000") (SERIAL_SIZE - 1))
             (zeroed SERIAL_SIZE) false false ELECTION_PRIORITY_SERIAL in
  let r := cluster_heartbeat_tick (mkEnv 104 0 0) s in
  serial_buffers s
  /\ exists m, sent (trace_of r) = [m]
               /\ sender_role m = CLUSTER_ROLE_ACTIVE
               /\ cstr (sender_serial m) = serial "SN2000".
Proof.
  intros s r.
  assert (Hs : serial_buffers s) by (repeat split; reflexivity).
  destruct (tick_sends_one_heartbeat (mkEnv 104 0 0) s Hs)
    as (_ & m & H1 & _ & H3 & H4 & _).
  split; [exact Hs |].
  exists m. split; [exact H1 |]. split; [exact H3 | exact H4].
Defined.

(** X7 (a heartbeat from one node to the other).  When the heartbeat a
    node sends in a tick is received by the other node, the receiver's
    [peer_role] is the role the sender has after that tick and the
    string in its [peer_serial] is the sender's local serial; the
    receiver's heartbeat is up and its own role is untouched. *)
Theorem heartbeat_round_trip :
  forall (ea eb : env) (a b : cluster_state_t) (m : heartbeat_msg_t),
    serial_buffers a ->
    serial_buffers b ->
    In m (sent (trace_of (cluster_heartbeat_tick ea a))) ->
    let a' := state_of (cluster_heartbeat_tick ea a) in
    let b' := state_of (cluster_heartbeat_received eb m b) in
    peer_role b' = local_role a'
    /\ cstr (peer_serial b') = cstr (local_serial a')
    /\ heartbeat_up b' = true
    /\ last_heartbeat_rx b' = time_now eb
    /\ local_role b' = local_role b.
Proof.
  intros ea eb a b m Ha Hb Hin a' b'. subst a' b'.
  rewrite tick_sent in Hin. destruct Hin as [<- | []].
  destruct (tick_frame ea a) as (_ & Hser & _). rewrite Hser.
  rewrite received_closed. simpl_state.
  cbn [sender_role sender_serial].
  destruct Ha as [Hal _], Hb as [_ Hbp].
  split_all; try reflexivity.
  destruct (strncpy_serial_buffer (peer_serial b)
              (strncpy (zeroed SENDER_SERIAL_SIZE) (local_serial a)
                 (SENDER_SERIAL_SIZE - 1)) Hbp) as [_ ->].
  rewrite (sender_serial_of_buffer _ Hal).
  apply firstn_all2. now apply serial_buffer_strlen in Hal.
Qed.

Lemma heartbeat_round_trip_witness :
  let a := mkCluster CLUSTER_ROLE_STANDBY CLUSTER_ROLE_ACTIVE true 100 100 7
             (strncpy (zeroed SERIAL_SIZE) (serial "SN2000") (SERIAL_SIZE - 1))
             (zeroed SERIAL_SIZE) false false ELECTION_PRIORITY_SERIAL in
  let b := state_of (cluster_state_init 7 (serial "SN1000") zero_state) in
  let ea := mkEnv 104 0 0 in
  let m := mkMsg 7 CLUSTER_ROLE_ACTIVE
             (strncpy (zeroed SENDER_SERIAL_SIZE) (local_serial a)
                (SENDER_SERIAL_SIZE - 1)) 104 in
  let b' := state_of (cluster_heartbeat_received (mkEnv 105 0 0) m b) in
  In m (sent (trace_of (cluster_heartbeat_tick ea a)))
  /\ peer_role b' = CLUSTER_ROLE_ACTIVE
  /\ cstr (peer_serial b') = serial "SN2000".
Proof.
  intros a b ea m b'.
  assert (Ha : serial_buffers a) by (repeat split; reflexivity).
  assert (Hb : serial_buffers b) by (repeat split; reflexivity).
  assert (Hin : In m (sent (trace_of (cluster_heartbeat_tick ea a))))
    by (left; reflexivity).
  destruct (heartbeat_round_trip ea (mkEnv 105 0 0) a b m Ha Hb Hin)
    as (H1 & H2 & _).
  split; [exact Hin |]. split; [exact H1 | exact H2].
Defined.

(* ================================================================== *)
(** ** Liveness *)
(* ================================================================== *)

Lemma tick_heartbeat_up e s :
  heartbeat_up (state_of (cluster_heartbeat_tick e s))
  = heartbeat_up s
    && negb (difftime (time_now e) (last_heartbeat_rx s) * 1000
             >? HEARTBEAT_TIMEOUT_MS).
Proof.
  tick_paths e s;
    destruct (heartbeat_up s); cbn [andb] in *;
    rewrite ?Hlost; reflexivity.
Qed.

(** X8 (the timeout is strict).  With the heartbeat up, a tick declares
    it lost exactly when more than 3 whole seconds separate the clock
    from [last_heartbeat_rx]: at 3 seconds, and when the clock is behind
    the last reception, the heartbeat stays up and nothing is activated. *)
Theorem heartbeat_timeout_boundary :
  forall (e : env) (s : cluster_state_t),
    heartbeat_up s = true ->
    let r := cluster_heartbeat_tick e s in
    (heartbeat_up (state_of r) = false
     <-> 3 < time_now e - last_heartbeat_rx s)
    /\ (time_now e - last_heartbeat_rx s <= 3 ->
        heartbeat_up (state_of r) = true
        /\ calls is_activate_vips (trace_of r) = 0%nat
        /\ calls is_activate_mac (trace_of r) = 0%nat).
Proof.
  intros e s Hup r. subst r. split.
  - rewrite tick_heartbeat_up, Hup. cbn [andb].
    unfold difftime, HEARTBEAT_TIMEOUT_MS. rewrite Z.gtb_ltb.
    destruct (Z.ltb_spec 3000 ((time_now e - last_heartbeat_rx s) * 1000));
      cbn [negb]; split; intros; try lia; try discriminate; reflexivity.
  - intros Hnear.
    assert (Hgt : (difftime (time_now e) (last_heartbeat_rx s) * 1000
                   >? HEARTBEAT_TIMEOUT_MS) = false).
    { unfold difftime, HEARTBEAT_TIMEOUT_MS. rewrite Z.gtb_ltb.
      apply Z.ltb_ge. lia. }
    split; [rewrite tick_heartbeat_up, Hup, Hgt; reflexivity |].
    tick_paths e s;
      try (rewrite Hup, Hgt in Hlost; discriminate Hlost);
      split; reflexivity.
Qed.

Lemma heartbeat_timeout_boundary_witness :
  let s := mkCluster CLUSTER_ROLE_STANDBY CLUSTER_ROLE_ACTIVE true 100 100 7
             (zeroed SERIAL_SIZE) (zeroed SERIAL_SIZE)
             false false ELECTION_PRIORITY_SERIAL in
  heartbeat_up s = true
  /\ heartbeat_up (state_of (cluster_heartbeat_tick (mkEnv 103 0 0) s)) = true
  /\ heartbeat_up (state_of (cluster_heartbeat_tick (mkEnv 104 0 0) s)) = false.
Proof.
  intros s.
  assert (Hup : heartbeat_up s = true) by reflexivity.
  destruct (heartbeat_timeout_boundary (mkEnv 103 0 0) s Hup) as [_ Hnear].
  destruct (heartbeat_timeout_boundary (mkEnv 104 0 0) s Hup) as [[_ Hfar] _].
  split; [exact Hup |]. split.
  - apply Hnear. simpl. lia.
  - apply Hfar. simpl. lia.
Defined.

Lemma ticks_within_timeout n :
  forall (clock : nat -> env) (s : cluster_state_t),
    heartbeat_up s = true ->
    local_role s <> CLUSTER_ROLE_ACTIVE ->
    (forall i : nat, (i < n)%nat ->
                     time_now (clock i) - last_heartbeat_rx s <= 3) ->
    let r := run (ticks clock n) s in
    heartbeat_up (state_of r) = true
    /\ local_role (state_of r) = local_role s
    /\ last_heartbeat_rx (state_of r) = last_heartbeat_rx s
    /\ actuator_calls (trace_of r) = [].
Proof.
  induction n as [| n IH]; intros clock s Hup Hrole Hnear; cbv zeta.
  - repeat split. exact Hup.
  - cbn [ticks]. rewrite run_cons. cbn [step]. simpl_state.
    assert (Hgt : (difftime (time_now (clock O)) (last_heartbeat_rx s) * 1000
                   >? HEARTBEAT_TIMEOUT_MS) = false).
    { unfold difftime, HEARTBEAT_TIMEOUT_MS. rewrite Z.gtb_ltb.
      apply Z.ltb_ge. specialize (Hnear O). lia. }
    assert (Hone :
      heartbeat_up (state_of (cluster_heartbeat_tick (clock O) s)) = true
      /\ local_role (state_of (cluster_heartbeat_tick (clock O) s))
         = local_role s
      /\ actuator_calls (trace_of (cluster_heartbeat_tick (clock O) s)) = []).
    { split; [rewrite tick_heartbeat_up, Hup, Hgt; reflexivity |].
      tick_paths (clock O) s;
        try (rewrite Hup, Hgt in Hlost; discriminate Hlost);
        try (apply Z.eqb_eq in Hactive; contradiction);
        split; reflexivity. }
    destruct Hone as (H1 & H2 & H3).
    destruct (tick_frame (clock O) s) as (_ & _ & _ & _ & _ & _ & Hrx & _).
    destruct (IH (fun i => clock (S i))
                (state_of (cluster_heartbeat_tick (clock O) s)))
      as (K1 & K2 & K3 & K4); try assumption.
    + now rewrite H2.
    + intros i Hi. rewrite Hrx. apply (Hnear (S i)). lia.
    + unfold actuator_calls in *. rewrite filter_app, H3, K4.
      rewrite K2, K3, H2, Hrx. auto.
Qed.

(** X9 (a heard peer keeps the standby passive).  After a heartbeat is
    received, a node that is not ACTIVE goes through any number of ticks
    made within 3 seconds of that reception with its heartbeat up, its
    role unchanged and no call to the Role Actuator. *)
Theorem no_promotion_while_heard :
  forall (e : env) (msg : heartbeat_msg_t) (s : cluster_state_t)
         (clock : nat -> env) (n : nat),
    local_role s <> CLUSTER_ROLE_ACTIVE ->
    (forall i : nat, (i < n)%nat -> time_now (clock i) - time_now e <= 3) ->
    let r := run (OpReceived e msg :: ticks clock n) s in
    heartbeat_up (state_of r) = true
    /\ local_role (state_of r) = local_role s
    /\ actuator_calls (trace_of r) = [].
Proof.
  intros e msg s clock n Hrole Hnear r. subst r.
  rewrite run_cons. cbn [step]. simpl_state.
  rewrite received_closed. simpl_state.
  set (s1 := set_peer_serial _ _).
  destruct (ticks_within_timeout n clock s1) as (K1 & K2 & _ & K4);
    try reflexivity; try assumption.
  unfold actuator_calls in *. rewrite filter_app, K4, K2, K1.
  split_all; try reflexivity.
  destruct (split_brain_detected s); reflexivity.
Qed.

Lemma no_promotion_while_heard_witness :
  let s := state_of (cluster_force_role CLUSTER_ROLE_STANDBY
             (state_of (cluster_state_init 7 (serial "SN2000") zero_state))) in
  let hb := mkMsg 7 CLUSTER_ROLE_ACTIVE (serial "SN1000") 100 in
  let clock := fun i : nat => mkEnv (101 + Z.of_nat i) 0 0 in
  let r := run (OpReceived (mkEnv 100 0 0) hb :: ticks clock 3) s in
  local_role s <> CLUSTER_ROLE_ACTIVE
  /\ heartbeat_up (state_of r) = true
  /\ local_role (state_of r) = CLUSTER_ROLE_STANDBY.
Proof.
  intros s hb clock r.
  assert (Hrole : local_role s <> CLUSTER_ROLE_ACTIVE) by discriminate.
  assert (Hnear : forall i : nat, (i < 3)%nat ->
            time_now (clock i) - time_now (mkEnv 100 0 0) <= 3)
    by (intros i Hi; unfold clock; cbn [time_now]; lia).
  destruct (no_promotion_while_heard (mkEnv 100 0 0) hb s clock 3 Hrole Hnear)
    as (H1 & H2 & _).
  split; [exact Hrole |]. split; [exact H1 | exact H2].
Defined.

(* ================================================================== *)
(** ** More on the resolver *)
(* ================================================================== *)

Lemma bytes_compare_refl l : bytes_compare l l = Eq.
Proof.
  induction l as [| x l IH]; simpl; [reflexivity |].
  now rewrite Z.compare_refl.
Qed.

Lemma bytes_compare_eq a :
  forall b, bytes_compare a b = Eq -> a = b.
Proof.
  induction a as [| x a IH]; intros [| y b] H; simpl in H;
    try discriminate; [reflexivity |].
  destruct (Z.compare_spec (uchar x) (uchar y)) as [E | E | E];
    try discriminate.
  apply uchar_inj in E. subst y. f_equal. now apply IH.
Qed.

Lemma bytes_compare_antisym a :
  forall b, bytes_compare b a = CompOpp (bytes_compare a b).
Proof.
  induction a as [| x a IH]; intros [| y b]; simpl; try reflexivity.
  rewrite (Z.compare_antisym (uchar x) (uchar y)).
  destruct (uchar x ?= uchar y); simpl; auto.
Qed.

Lemma should_demote_serial e s :
  election_policy s = ELECTION_PRIORITY_SERIAL ->
  should_demote e s
  = match bytes_compare (cstr (local_serial s)) (cstr (peer_serial s)) with
    | Gt => true
    | _ => false
    end.
Proof.
  intro Hpol. unfold should_demote. rewrite Hpol, Z.eqb_refl.
  rewrite <- strcmp_compare. unfold Z.gtb. reflexivity.
Qed.

Lemma auto_resolve_role e s :
  local_role s = CLUSTER_ROLE_ACTIVE ->
  local_role (state_of (cluster_auto_resolve_split_brain e s))
  = (if should_demote e s then CLUSTER_ROLE_STANDBY else CLUSTER_ROLE_ACTIVE).
Proof.
  intro H. rewrite auto_resolve_closed.
  destruct (should_demote e s); simpl_state; [reflexivity | exact H].
Qed.

(** X10 (the tie-break agrees across the pair).  Two ACTIVE nodes under
    the SerialNumber policy, each holding the other's serial as its peer
    serial, never both demote.  When their serials differ exactly one of
    them becomes STANDBY, the one whose serial is the greater; when the
    serials are equal both stay ACTIVE. *)
Theorem serial_tie_break_across_pair :
  forall (ea eb : env) (a b : cluster_state_t),
    local_role a = CLUSTER_ROLE_ACTIVE ->
    local_role b = CLUSTER_ROLE_ACTIVE ->
    election_policy a = ELECTION_PRIORITY_SERIAL ->
    election_policy b = ELECTION_PRIORITY_SERIAL ->
    cstr (peer_serial a) = cstr (local_serial b) ->
    cstr (peer_serial b) = cstr (local_serial a) ->
    let a' := state_of (cluster_auto_resolve_split_brain ea a) in
    let b' := state_of (cluster_auto_resolve_split_brain eb b) in
    match bytes_compare (cstr (local_serial a)) (cstr (local_serial b)) with
    | Gt => local_role a' = CLUSTER_ROLE_STANDBY
            /\ local_role b' = CLUSTER_ROLE_ACTIVE
    | Lt => local_role a' = CLUSTER_ROLE_ACTIVE
            /\ local_role b' = CLUSTER_ROLE_STANDBY
    | Eq => local_role a' = CLUSTER_ROLE_ACTIVE
            /\ local_role b' = CLUSTER_ROLE_ACTIVE
            /\ cstr (local_serial a) = cstr (local_serial b)
    end.
Proof.
  intros ea eb a b Ha Hb Hpa Hpb Hab Hba a' b'. subst a' b'.
  rewrite (auto_resolve_role ea a Ha), (auto_resolve_role eb b Hb).
  rewrite (should_demote_serial ea a Hpa), (should_demote_serial eb b Hpb).
  rewrite Hab, Hba.
  rewrite (bytes_compare_antisym (cstr (local_serial a)) (cstr (local_serial b))).
  destruct (bytes_compare (cstr (local_serial a)) (cstr (local_serial b)))
    eqn:C; simpl; auto.
  split_all; try reflexivity. now apply bytes_compare_eq.
Qed.

Lemma serial_tie_break_across_pair_witness :
  let a := dual_active "SN2000" "SN1000" true in
  let b := dual_active "SN1000" "SN2000" true in
  let e := mkEnv 101 0 0 in
  local_role (state_of (cluster_auto_resolve_split_brain e a))
  = CLUSTER_ROLE_STANDBY
  /\ local_role (state_of (cluster_auto_resolve_split_brain e b))
     = CLUSTER_ROLE_ACTIVE.
Proof.
  intros a b e.
  pose proof (serial_tie_break_across_pair e e a b
                eq_refl eq_refl eq_refl eq_refl eq_refl eq_refl) as H.
  cbv zeta in H.
  change (bytes_compare _ _) with Gt in H.
  exact H.
Defined.

(** X11 (the other policies).  Under a policy other than SerialNumber the
    serials play no part.  With the Uptime policy the node demotes
    itself, releases its resources and clears the flag exactly when its
    own uptime is strictly lower than the peer's; with equal uptimes
    nothing changes.  With a policy value that is neither of the two the
    resolver never demotes. *)
Theorem resolver_other_policies :
  forall (e : env) (s : cluster_state_t),
    election_policy s <> ELECTION_PRIORITY_SERIAL ->
    let r := cluster_auto_resolve_split_brain e s in
    result_of r = 0
    /\ if (election_policy s =? ELECTION_PRIORITY_UPTIME)
          && (system_uptime e <? peer_uptime e)
       then state_of r
            = set_split_brain_detected false
                (set_local_role CLUSTER_ROLE_STANDBY s)
            /\ actuator_calls (trace_of r) = release_path
       else state_of r = s /\ actuator_calls (trace_of r) = [].
Proof.
  intros e s Hpol r. subst r. rewrite auto_resolve_closed.
  unfold should_demote.
  destruct (Z.eqb_spec (election_policy s) ELECTION_PRIORITY_SERIAL);
    [contradiction |].
  destruct (election_policy s =? ELECTION_PRIORITY_UPTIME); cbn [andb].
  - destruct (system_uptime e <? peer_uptime e); repeat split.
  - repeat split.
Qed.

Lemma resolver_other_policies_witness :
  let s := set_election_policy ELECTION_PRIORITY_UPTIME
             (dual_active "SN1000" "SN2000" true) in
  let young := cluster_auto_resolve_split_brain (mkEnv 0 50 900) s in
  let same := cluster_auto_resolve_split_brain (mkEnv 0 900 900) s in
  election_policy s <> ELECTION_PRIORITY_SERIAL
  /\ local_role (state_of young) = CLUSTER_ROLE_STANDBY
  /\ state_of same = s.
Proof.
  intros s young same.
  assert (Hpol : election_policy s <> ELECTION_PRIORITY_SERIAL)
    by discriminate.
  destruct (resolver_other_policies (mkEnv 0 50 900) s Hpol) as [_ H1].
  destruct (resolver_other_policies (mkEnv 0 900 900) s Hpol) as [_ H2].
  cbv zeta in H1, H2.
  change (_ && _) with true in H1. change (_ && _) with false in H2.
  destruct H1 as [H1 _], H2 as [H2 _].
  split; [exact Hpol |]. split; [| exact H2].
  unfold young. rewrite H1. reflexivity.
Defined.

Lemma received_after_init id src s0 e msg :
  let s := state_of (cluster_heartbeat_received e msg
                       (state_of (cluster_state_init id src s0))) in
  cstr (local_serial s) = firstn (SERIAL_SIZE - 1) (cstr src)
  /\ cstr (peer_serial s)
     = firstn (SERIAL_SIZE - 1) (cstr (sender_serial msg))
  /\ election_policy s = ELECTION_PRIORITY_SERIAL.
Proof.
  cbv zeta. rewrite received_closed, init_closed. simpl_state.
  split; [apply strncpy_zeroed_serial |].
  split; [| reflexivity].
  apply strncpy_serial_buffer, zeroed_serial_buffer.
Qed.

Lemma resolver_equal_serials e s :
  election_policy s = ELECTION_PRIORITY_SERIAL ->
  cstr (local_serial s) = cstr (peer_serial s) ->
  strcmp (local_serial s) (peer_serial s) = 0
  /\ state_of (cluster_auto_resolve_split_brain e s) = s
  /\ actuator_calls (trace_of (cluster_auto_resolve_split_brain e s)) = [].
Proof.
  intros Hpol Heq.
  assert (Hcmp : bytes_compare (cstr (local_serial s)) (cstr (peer_serial s))
                 = Eq)
    by (rewrite Heq; apply bytes_compare_refl).
  split.
  - apply Z.compare_eq. rewrite strcmp_compare. exact Hcmp.
  - rewrite auto_resolve_closed.
    rewrite (should_demote_serial e s Hpol), Hcmp. split; reflexivity.
Qed.

(** X12 (serials are compared on 31 bytes).  A node initialised with one
    serial that receives a heartbeat carrying another, the two agreeing
    on their first 31 bytes, holds equal local and peer strings:
    [strcmp] gives 0 and the resolver, under the SerialNumber policy the
    initialisation sets, leaves the node as it is. *)
Theorem long_serials_tie :
  forall (id : Z) (src : list byte) (s0 : cluster_state_t)
         (e e' : env) (msg : heartbeat_msg_t),
    firstn (SERIAL_SIZE - 1) (cstr src)
    = firstn (SERIAL_SIZE - 1) (cstr (sender_serial msg)) ->
    let s := state_of (cluster_heartbeat_received e msg
                         (state_of (cluster_state_init id src s0))) in
    let r := cluster_auto_resolve_split_brain e' s in
    strcmp (local_serial s) (peer_serial s) = 0
    /\ state_of r = s
    /\ actuator_calls (trace_of r) = [].
Proof.
  intros id src s0 e e' msg Hsame.
  destruct (received_after_init id src s0 e msg) as (Hl & Hp & Hpol).
  apply resolver_equal_serials; [exact Hpol |].
  rewrite Hl, Hp. exact Hsame.
Qed.

Lemma long_serials_tie_witness :
  let src := serial "SN-0123456789-0123456789-012345-A" in
  let msg := mkMsg 7 CLUSTER_ROLE_ACTIVE
               (serial "SN-0123456789-0123456789-012345-B") 100 in
  let s := state_of (cluster_heartbeat_received (mkEnv 100 0 0) msg
             (state_of (cluster_state_init 7 src zero_state))) in
  cstr src <> cstr (sender_serial msg)
  /\ strcmp (local_serial s) (peer_serial s) = 0.
Proof.
  intros src msg s.
  assert (Hsame : firstn (SERIAL_SIZE - 1) (cstr src)
                  = firstn (SERIAL_SIZE - 1) (cstr (sender_serial msg)))
    by (vm_compute; reflexivity).
  destruct (long_serials_tie 7 src zero_state (mkEnv 100 0 0) (mkEnv 101 0 0)
              msg Hsame) as [H _].
  split; [vm_compute; discriminate | exact H].
Defined.

(* ================================================================== *)
(** ** The override, the flag and the peer data over whole runs *)
(* ================================================================== *)

(** X13 (an override is not validated).  [cluster_force_role] returns 0
    for every role value.  For a value that is neither ACTIVE nor
    STANDBY it calls no path of the Role Actuator, and still stores the
    value in [local_role] and clears the split-brain flag. *)
Theorem force_role_other_value :
  forall (s : cluster_state_t) (role : Z),
    role <> CLUSTER_ROLE_ACTIVE ->
    role <> CLUSTER_ROLE_STANDBY ->
    let r := cluster_force_role role s in
    result_of r = 0
    /\ actuator_calls (trace_of r) = []
    /\ local_role (state_of r) = role
    /\ split_brain_detected (state_of r) = false
    /\ state_of r = set_split_brain_detected false (set_local_role role s).
Proof.
  intros s role Ha Hs r. subst r. rewrite force_role_closed.
  destruct (Z.eqb_spec role CLUSTER_ROLE_STANDBY); [contradiction |].
  destruct (Z.eqb_spec role CLUSTER_ROLE_ACTIVE); [contradiction |].
  repeat split.
Qed.

Lemma force_role_other_value_witness :
  let s := dual_active "SN1000" "SN2000" false in
  let r := cluster_force_role CLUSTER_ROLE_INIT
             (set_split_brain_detected true s) in
  actuator_calls (trace_of r) = []
  /\ local_role (state_of r) = CLUSTER_ROLE_INIT
  /\ split_brain_detected (state_of r) = false.
Proof.
  intros s r.
  assert (Ha : CLUSTER_ROLE_INIT <> CLUSTER_ROLE_ACTIVE) by discriminate.
  assert (Hs : CLUSTER_ROLE_INIT <> CLUSTER_ROLE_STANDBY) by discriminate.
  destruct (force_role_other_value (set_split_brain_detected true s)
              CLUSTER_ROLE_INIT Ha Hs) as (_ & H2 & H3 & H4 & _).
  exact (conj H2 (conj H3 H4)).
Defined.

Lemma step_flag_set o s :
  split_brain_detected s = true ->
  is_override o = false ->
  let r := step o s in
  split_brain_detected (state_of r) = true
  /\ calls is_crit (trace_of r) = 0%nat
  /\ calls is_resolver_entry (trace_of r) = 0%nat
  /\ calls is_release_vips (trace_of r) = 0%nat
  /\ calls is_flush_mac (trace_of r) = 0%nat.
Proof.
  intros Hset Hop. destruct o as [e | e msg | role | status]; cbv zeta.
  - cbn [step].
    tick_paths e s; try congruence; repeat split; assumption.
  - cbn [step]. rewrite received_closed. simpl_state.
    rewrite Hset. repeat split.
  - discriminate Hop.
  - rewrite step_get_status. simpl_state. repeat split. exact Hset.
Qed.

(** X14 (a set flag stays set).  Once [split_brain_detected] is true,
    ticks, received heartbeats and status queries leave it true,
    whatever the peer reports and whether or not automatic recovery is
    enabled: the detection is not logged again, the resolver is not
    entered again and nothing is released.  Only an operator override
    clears the flag. *)
Theorem set_flag_needs_override :
  forall (s : cluster_state_t) (ops : list op),
    split_brain_detected s = true ->
    Forall (fun o => is_override o = false) ops ->
    let r := run ops s in
    split_brain_detected (state_of r) = true
    /\ calls is_crit (trace_of r) = 0%nat
    /\ calls is_resolver_entry (trace_of r) = 0%nat
    /\ calls is_release_vips (trace_of r) = 0%nat
    /\ calls is_flush_mac (trace_of r) = 0%nat.
Proof.
  intros s ops Hset Hops; revert s Hset.
  induction Hops as [| o rest Ho _ IH]; intros s Hset; cbv zeta.
  - repeat split. exact Hset.
  - rewrite run_cons. simpl_state. rewrite !calls_app.
    destruct (step_flag_set o s Hset Ho) as (H1 & H2 & H3 & H4 & H5).
    destruct (IH (state_of (step o s)) H1) as (K1 & K2 & K3 & K4 & K5).
    rewrite H2, H3, H4, H5, K2, K3, K4, K5. auto.
Qed.

Lemma set_flag_needs_override_witness :
  let s := set_split_brain_detected true (dual_active "SN2000" "SN1000" true) in
  let hb := mkMsg 7 CLUSTER_ROLE_STANDBY (serial "SN1000") 102 in
  let ops := [OpTick (mkEnv 101 0 0);
              OpReceived (mkEnv 102 0 0) hb;
              OpTick (mkEnv 103 0 0);
              OpGetStatus None] in
  split_brain_detected s = true
  /\ peer_role (state_of (run ops s)) = CLUSTER_ROLE_STANDBY
  /\ split_brain_detected (state_of (run ops s)) = true.
Proof.
  intros s hb ops.
  assert (Hset : split_brain_detected s = true) by reflexivity.
  assert (Hops : Forall (fun o => is_override o = false) ops)
    by (repeat (apply Forall_cons; [reflexivity |]); apply Forall_nil).
  destruct (set_flag_needs_override s ops Hset Hops) as (H & _).
  split; [exact Hset |]. split; [reflexivity | exact H].
Defined.

Lemma step_peer_data o s :
  is_receive o = false ->
  let s' := state_of (step o s) in
  peer_role s' = peer_role s
  /\ peer_serial s' = peer_serial s
  /\ last_heartbeat_rx s' = last_heartbeat_rx s
  /\ (heartbeat_up s' = true -> heartbeat_up s = true).
Proof.
  intros Hop. destruct o as [e | e msg | role | status]; cbv zeta.
  - cbn [step].
    destruct (tick_frame e s) as (_ & _ & H3 & _ & _ & H6 & H7 & _).
    split_all; try assumption.
    rewrite tick_heartbeat_up. intro H. now apply andb_prop in H.
  - discriminate Hop.
  - cbn [step]. rewrite force_role_closed. simpl_state. auto.
  - rewrite step_get_status. simpl_state. auto.
Qed.

(** X15 (what is known of the peer changes only on reception).  A
    sequence of ticks, overrides and status queries, without any received
    heartbeat, leaves [peer_role], [peer_serial] and [last_heartbeat_rx]
    as they were and never turns [heartbeat_up] from false to true. *)
Theorem peer_data_needs_reception :
  forall (s : cluster_state_t) (ops : list op),
    Forall (fun o => is_receive o = false) ops ->
    let s' := state_of (run ops s) in
    peer_role s' = peer_role s
    /\ peer_serial s' = peer_serial s
    /\ last_heartbeat_rx s' = last_heartbeat_rx s
    /\ (heartbeat_up s' = true -> heartbeat_up s = true).
Proof.
  intros s ops Hops; revert s.
  induction Hops as [| o rest Ho _ IH]; intros s; cbv zeta.
  - auto.
  - rewrite run_cons. simpl_state.
    destruct (step_peer_data o s Ho) as (H1 & H2 & H3 & H4).
    destruct (IH (state_of (step o s))) as (K1 & K2 & K3 & K4).
    rewrite K1, K2, K3, H1, H2, H3.
    split_all; try reflexivity.
    intro H. apply H4, K4, H.
Qed.

Lemma peer_data_needs_reception_witness :
  let s := dual_active "SN2000" "SN1000" false in
  let ops := [OpTick (mkEnv 101 0 0);
              OpForceRole CLUSTER_ROLE_STANDBY;
              OpTick (mkEnv 200 0 0)] in
  Forall (fun o => is_receive o = false) ops
  /\ peer_role (state_of (run ops s)) = CLUSTER_ROLE_ACTIVE
  /\ last_heartbeat_rx (state_of (run ops s)) = 100.
Proof.
  intros s ops.
  assert (Hops : Forall (fun o => is_receive o = false) ops)
    by (repeat (apply Forall_cons; [reflexivity |]); apply Forall_nil).
  destruct (peer_data_needs_reception s ops Hops) as (H1 & _ & H3 & _).
  split; [exact Hops |]. split; [exact H1 | exact H3].
Defined.

(* ================================================================== *)
(** ** BGP session timers *)
(* ================================================================== *)

Module BgpTimersFacts.
Import BgpTimers.

Lemma update_length f tbl : forall i, List.length (update i f tbl) = List.length tbl.
Proof.
  induction tbl as [| t rest IH]; intros [| i]; simpl; auto.
Qed.

Lemma timer_at_update_same f tbl :
  forall i, (i < List.length tbl)%nat ->
            timer_at i (update i f tbl) = f (timer_at i tbl).
Proof.
  unfold timer_at.
  induction tbl as [| t rest IH]; intros [| i] Hi; simpl in *; try lia.
  - reflexivity.
  - apply IH. lia.
Qed.

Lemma timer_at_update_other f tbl :
  forall i j, i <> j -> timer_at j (update i f tbl) = timer_at j tbl.
Proof.
  unfold timer_at.
  induction tbl as [| t rest IH]; intros [| i] [| j] Hij; simpl;
    try reflexivity; try congruence.
  apply IH. congruence.
Qed.

Lemma timer_at_zero j : timer_at j (vrf_timers zero_timers) = zero_timer.
Proof. unfold timer_at, zero_timers. cbn [vrf_timers]. apply nth_repeat. Qed.

Lemma find_all_false {A : Type} (f : A -> bool) (l : list A) :
  (forall x, In x l -> f x = false) -> find f l = None.
Proof.
  induction l as [| x l IH]; intro H; simpl; [reflexivity |].
  rewrite (H x (or_introl eq_refl)). apply IH.
  intros y Hy. apply H. now right.
Qed.

Lemma set_first_none id hold keep tbl :
  (forall t, In t tbl -> vrf_id t <> id) ->
  set_first id hold keep tbl = None.
Proof.
  induction tbl as [| t rest IH]; intro H; simpl; [reflexivity |].
  destruct (Z.eqb_spec (vrf_id t) id) as [E | _].
  - exfalso. now apply (H t (or_introl eq_refl)).
  - rewrite IH; [reflexivity |]. intros u Hu. apply H. now right.
Qed.

Lemma in_table_at tbl t :
  In t tbl -> exists j, (j < List.length tbl)%nat /\ timer_at j tbl = t.
Proof. intro H. apply In_nth. exact H. Qed.

(** The loop of [bgp_timers_init], entry by entry. *)
Lemma init_loop_spec n :
  forall i m st,
    (Z.to_nat (list_count m) <= List.length (vrf_timers st))%nat ->
    let p := Nat.min n (Z.to_nat (list_count m) - 1 - i) in
    let st' := fst (init_loop n i m st) in
    List.length (vrf_timers st') = List.length (vrf_timers st)
    /\ vrf_timer_count st' = vrf_timer_count st + Z.of_nat p
    /\ forall j,
         timer_at j (vrf_timers st')
         = if ((i <? j) && (j <=? i + p))%nat
           then init_named (info_at j (vrf_list m)) (timer_at j (vrf_timers st))
           else timer_at j (vrf_timers st).
Proof.
  induction n as [| n IH]; intros i m st Hfit; cbv zeta.
  - simpl. split; [reflexivity |]. split; [lia |].
    intro j. rewrite Nat.add_0_r.
    destruct (Nat.ltb_spec i j), (Nat.leb_spec j i); simpl; try reflexivity; lia.
  - cbn [init_loop].
    destruct (Z.geb_spec (Z.of_nat (S i)) (list_count m)) as [Hstop | Hgo].
    + cbn [fst].
      assert (Hp : Nat.min (S n) (Z.to_nat (list_count m) - 1 - i) = 0%nat)
        by lia.
      rewrite Hp. split; [reflexivity |]. split; [lia |].
      intro j. rewrite Nat.add_0_r.
      destruct (Nat.ltb_spec i j), (Nat.leb_spec j i); simpl;
        try reflexivity; lia.
    + set (st1 := mkTimers _ _).
      assert (Hfit1 : (Z.to_nat (list_count m)
                       <= List.length (vrf_timers st1))%nat)
        by (subst st1; cbn [vrf_timers]; rewrite update_length; exact Hfit).
      specialize (IH (S i) m st1 Hfit1). cbv zeta in IH.
      destruct (init_loop n (S i) m st1) as [st2 t2]. cbn [fst] in *.
      destruct IH as (Hlen & Hcount & Hat).
      assert (Hp : Nat.min (S n) (Z.to_nat (list_count m) - 1 - i)
                   = S (Nat.min n (Z.to_nat (list_count m) - 1 - S i)))
        by lia.
      rewrite Hp.
      set (p := Nat.min n (Z.to_nat (list_count m) - 1 - S i)) in *.
      split; [| split].
      * rewrite Hlen. subst st1. cbn [vrf_timers]. apply update_length.
      * rewrite Hcount. subst st1. cbn [vrf_timer_count]. lia.
      * intro j. rewrite Hat. subst st1. cbn [vrf_timers].
        destruct (Nat.eq_dec j (S i)) as [-> | Hne].
        -- rewrite timer_at_update_same by lia.
           destruct (Nat.ltb_spec (S i) (S i)); [lia |].
           destruct (Nat.ltb_spec i (S i)); [| lia].
           destruct (Nat.leb_spec (S i) (i + S p)); [| lia].
           reflexivity.
        -- rewrite timer_at_update_other by congruence.
           destruct (Nat.ltb_spec (S i) j), (Nat.leb_spec j (S i + p)),
             (Nat.ltb_spec i j), (Nat.leb_spec j (i + S p));
             simpl; try reflexivity; lia.
Qed.

Lemma handled_fits m :
  manager_ok m -> (handled m < MAX_VRF_INSTANCES)%nat.
Proof.
  intros [Hc _]. unfold handled, MAX_VRF_INSTANCES in *. lia.
Qed.

(** [bgp_timers_init] on its successful path. *)
Lemma init_spec m st :
  table_ok st -> manager_ok m -> 0 < num_vrfs m -> 0 <= list_count m ->
  exists st' t,
    bgp_timers_init m st = (0, st', t)
    /\ table_ok st'
    /\ vrf_timer_count st' = 1 + Z.of_nat (handled m)
    /\ forall j,
         timer_at j (vrf_timers st')
         = if (j =? 0)%nat then init_default (timer_at 0 (vrf_timers st))
           else if (j <=? handled m)%nat
                then init_named (info_at j (vrf_list m))
                       (timer_at j (vrf_timers st))
                else timer_at j (vrf_timers st).
Proof.
  intros Hst [Hc Hl] Hn Hlc. unfold bgp_timers_init.
  destruct (Z.leb_spec (num_vrfs m) 0); [lia |].
  destruct (Z.ltb_spec (list_count m) 0); [lia |].
  set (st1 := mkTimers (update 0 init_default (vrf_timers st)) 1).
  assert (Hlen1 : List.length (vrf_timers st1) = MAX_VRF_INSTANCES)
    by (subst st1; cbn [vrf_timers]; rewrite update_length; exact Hst).
  pose proof (init_loop_spec (Z.to_nat (num_vrfs m - 1)) 0 m st1) as Hloop.
  cbv zeta in Hloop.
  destruct (init_loop (Z.to_nat (num_vrfs m - 1)) 0 m st1) as [st2 t2].
  cbn [fst] in Hloop.
  destruct Hloop as (Hlen & Hcount & Hat); [rewrite Hlen1; lia |].
  rewrite Nat.sub_0_r in *. fold (handled m) in *.
  eexists. eexists. split; [reflexivity |].
  split; [unfold table_ok; now rewrite Hlen |].
  split; [rewrite Hcount; subst st1; cbn [vrf_timer_count]; lia |].
  intro j. rewrite Hat. subst st1. cbn [vrf_timers]. rewrite Nat.add_0_l.
  destruct j as [| j].
  - change (0 <? 0)%nat with false. cbn [andb Nat.eqb].
    apply timer_at_update_same. rewrite Hst. unfold MAX_VRF_INSTANCES. lia.
  - rewrite timer_at_update_other by congruence.
    change (0 <? S j)%nat with true. cbn [andb Nat.eqb]. reflexivity.
Qed.

Lemma lookup_fresh id : lookup id (vrf_timers zero_timers) = None.
Proof.
  apply find_all_false. intros t Ht.
  apply repeat_spec in Ht. subst t. cbn [initialized zero_timer].
  apply andb_false_r.
Qed.

(** X16 (an initialisation that fails).  [bgp_timers_init] returns -1
    when the VRF manager reports no VRF at all or fails to deliver its
    list, and then leaves the table and the counter as they were; not
    even the default VRF is set up.  On the table as it is at program
    start every hold-time and keepalive query therefore still answers
    0. *)
Theorem init_failure_leaves_table :
  forall (m : vrf_manager) (st : timers_t) (id remote : Z),
    num_vrfs m <= 0 \/ list_count m < 0 ->
    fst (fst (bgp_timers_init m st)) = -1
    /\ snd (fst (bgp_timers_init m st)) = st
    /\ fst (bgp_timers_get_hold_time id remote
              (snd (fst (bgp_timers_init m zero_timers)))) = 0
    /\ fst (bgp_timers_get_keepalive id
              (snd (fst (bgp_timers_init m zero_timers)))) = 0.
Proof.
  intros m st id remote Hfail.
  assert (Hinit : forall st0, fst (fst (bgp_timers_init m st0)) = -1
                              /\ snd (fst (bgp_timers_init m st0)) = st0).
  { intro st0. unfold bgp_timers_init.
    destruct (Z.leb_spec (num_vrfs m) 0); [split; reflexivity |].
    destruct (Z.ltb_spec (list_count m) 0); [split; reflexivity | lia]. }
  destruct (Hinit st) as [H1 H2]. destruct (Hinit zero_timers) as [_ H3].
  rewrite H3. unfold bgp_timers_get_hold_time, bgp_timers_get_keepalive.
  rewrite lookup_fresh. auto.
Qed.

Lemma init_failure_leaves_table_witness :
  let m := mkManager 0 0 (repeat (mkInfo 0 []) MAX_VRF_INSTANCES) in
  fst (fst (bgp_timers_init m zero_timers)) = -1
  /\ fst (bgp_timers_get_hold_time 0 90
            (snd (fst (bgp_timers_init m zero_timers)))) = 0.
Proof.
  intros m.
  assert (Hfail : num_vrfs m <= 0 \/ list_count m < 0)
    by (left; simpl; lia).
  destruct (init_failure_leaves_table m zero_timers 0 90 Hfail)
    as (H1 & _ & H3 & _).
  exact (conj H1 H3).
Defined.

(** X17 (what an initialisation builds).  With at least one VRF reported
    and a list that fits the table, [bgp_timers_init] returns 0 and keeps
    the table at its size.  Entry 0 becomes the default VRF with the
    default timers, whatever it held.  The entries 1 to
    min(num_vrfs - 1, list_count - 1) take the id and the name (63 bytes
    at most) of the VRF at the same index of the list and are marked
    initialised; they get the default timers unless they are marked
    configured, in which case they keep their values.  Every later entry
    is left as it was, and the counter is the number of entries set up. *)
Theorem init_builds_table :
  forall (m : vrf_manager) (st : timers_t),
    table_ok st -> manager_ok m -> 0 < num_vrfs m -> 0 <= list_count m ->
    let r := bgp_timers_init m st in
    let st' := snd (fst r) in
    let old := fun j => timer_at j (vrf_timers st) in
    let new := fun j => timer_at j (vrf_timers st') in
    fst (fst r) = 0
    /\ table_ok st'
    /\ vrf_timer_count st' = 1 + Z.of_nat (handled m)
    /\ (vrf_id (new O) = 0
        /\ initialized (new O) = true
        /\ hold_time (new O) = BGP_DEFAULT_HOLD_TIME
        /\ keepalive (new O) = BGP_DEFAULT_KEEPALIVE
        /\ connect_retry (new O) = BGP_DEFAULT_CONNECT_RETRY
        /\ cstr (firstn (VRF_NAME_SIZE - 1) (vrf_name (new O)))
           = list_byte_of_string "default")
    /\ (forall j, (1 <= j <= handled m)%nat ->
          vrf_id (new j) = info_vrf_id (info_at j (vrf_list m))
          /\ initialized (new j) = true
          /\ configured (new j) = configured (old j)
          /\ cstr (firstn (VRF_NAME_SIZE - 1) (vrf_name (new j)))
             = firstn (VRF_NAME_SIZE - 1)
                 (cstr (info_vrf_name (info_at j (vrf_list m))))
          /\ hold_time (new j)
             = (if configured (old j) then hold_time (old j)
                else BGP_DEFAULT_HOLD_TIME)
          /\ keepalive (new j)
             = (if configured (old j) then keepalive (old j)
                else BGP_DEFAULT_KEEPALIVE)
          /\ connect_retry (new j)
             = (if configured (old j) then connect_retry (old j)
                else BGP_DEFAULT_CONNECT_RETRY))
    /\ (forall j, (handled m < j)%nat -> new j = old j).
Proof.
  intros m st Hst Hm Hn Hlc r st' old new. subst r st' old new.
  destruct (init_spec m st Hst Hm Hn Hlc) as (st' & t & -> & Hok & Hcount & Hat).
  cbn [fst snd].
  split; [reflexivity |]. split; [exact Hok |]. split; [exact Hcount |].
  split; [| split].
  - rewrite (Hat O). cbn [Nat.eqb].
    unfold init_default.
    cbn [vrf_id initialized hold_time keepalive connect_retry vrf_name].
    split_all; reflexivity.
  - intros j Hj. rewrite (Hat j).
    destruct (Nat.eqb_spec j 0); [lia |].
    destruct (Nat.leb_spec j (handled m)); [| lia].
    unfold init_named.
    destruct (configured (timer_at j (vrf_timers st))) eqn:Hcfg;
      cbn [vrf_id initialized configured hold_time keepalive connect_retry
           vrf_name];
      rewrite strncpy_window; split_all; reflexivity.
  - intros j Hj. rewrite (Hat j).
    destruct (Nat.eqb_spec j 0); [lia |].
    destruct (Nat.leb_spec j (handled m)); [lia | reflexivity].
Qed.

Lemma init_builds_table_witness :
  let m := mkManager 3 3
             (mkInfo 0 (list_byte_of_string "default")
              :: mkInfo 10 (list_byte_of_string "red")
              :: mkInfo 20 (list_byte_of_string "blue")
              :: repeat (mkInfo 0 []) 253) in
  let st' := snd (fst (bgp_timers_init m zero_timers)) in
  table_ok zero_timers
  /\ manager_ok m
  /\ vrf_timer_count st' = 3
  /\ vrf_id (timer_at 2 (vrf_timers st')) = 20
  /\ hold_time (timer_at 2 (vrf_timers st')) = BGP_DEFAULT_HOLD_TIME.
Proof.
  intros m st'.
  assert (Hst : table_ok zero_timers) by reflexivity.
  assert (Hm : manager_ok m) by (split; [simpl; lia | reflexivity]).
  assert (Hn : 0 < num_vrfs m) by reflexivity.
  assert (Hlc : 0 <= list_count m) by (simpl; lia).
  destruct (init_builds_table m zero_timers Hst Hm Hn Hlc)
    as (_ & _ & Hcount & _ & Hnamed & _).
  assert (H2 : (1 <= 2 <= handled m)%nat) by (vm_compute; lia).
  destruct (Hnamed 2%nat H2) as (Hid & _ & _ & _ & Hhold & _).
  split; [exact Hst |]. split; [exact Hm |].
  split; [exact Hcount |]. split; [exact Hid | exact Hhold].
Defined.

Lemma lookup_found id tbl t :
  lookup id tbl = Some t ->
  vrf_id t = id /\ initialized t = true
  /\ exists j, (j < List.length tbl)%nat /\ timer_at j tbl = t.
Proof.
  intro H. apply find_some in H. destruct H as [Hin Hf].
  apply andb_prop in Hf. destruct Hf as [Hid Hinit].
  apply Z.eqb_eq in Hid. auto using in_table_at.
Qed.

Lemma lookup_exists id tbl j :
  (j < List.length tbl)%nat ->
  vrf_id (timer_at j tbl) = id ->
  initialized (timer_at j tbl) = true ->
  exists t, lookup id tbl = Some t.
Proof.
  intros Hj Hid Hinit.
  destruct (lookup id tbl) as [t |] eqn:E; [now exists t |].
  exfalso.
  pose proof (find_none _ _ E (timer_at j tbl) (nth_In _ _ Hj)) as Hf.
  cbv beta in Hf. rewrite Hid, Z.eqb_refl, Hinit in Hf. discriminate.
Qed.

Lemma get_hold_time_found id remote st t :
  lookup id (vrf_timers st) = Some t ->
  bgp_timers_get_hold_time id remote st = (negotiated (hold_time t) remote, []).
Proof.
  intro H. unfold bgp_timers_get_hold_time, negotiated. rewrite H.
  unfold BGP_HOLD_TIME_DISABLED.
  destruct ((remote =? 0) || (hold_time t =? 0)); [reflexivity |].
  destruct (Z.ltb_spec (hold_time t) remote); f_equal; lia.
Qed.

Lemma get_keepalive_found id st t :
  lookup id (vrf_timers st) = Some t ->
  bgp_timers_get_keepalive id st
  = (if keepalive t >? 0 then keepalive t else hold_time t / 3, []).
Proof.
  intro H. unfold bgp_timers_get_keepalive. rewrite H.
  destruct (keepalive t >? 0); reflexivity.
Qed.

(** The table [bgp_timers_init] builds from the table of program start. *)
Lemma init_fresh m :
  manager_ok m -> 0 < num_vrfs m -> 0 <= list_count m ->
  exists st' t,
    bgp_timers_init m zero_timers = (0, st', t)
    /\ table_ok st'
    /\ vrf_timer_count st' = 1 + Z.of_nat (handled m)
    /\ forall j,
         timer_at j (vrf_timers st')
         = if (j =? 0)%nat then init_default zero_timer
           else if (j <=? handled m)%nat
                then init_named (info_at j (vrf_list m)) zero_timer
                else zero_timer.
Proof.
  intros Hm Hn Hlc.
  destruct (init_spec m zero_timers eq_refl Hm Hn Hlc)
    as (st' & t & Hrun & Hok & Hcount & Hat).
  exists st', t. split_all; try assumption.
  intro j. rewrite Hat, !timer_at_zero. reflexivity.
Qed.

Lemma init_fresh_defaults m st' t0 :
  manager_ok m -> 0 < num_vrfs m -> 0 <= list_count m ->
  bgp_timers_init m zero_timers = (0, st', t0) ->
  forall id t, lookup id (vrf_timers st') = Some t ->
               hold_time t = BGP_DEFAULT_HOLD_TIME
               /\ keepalive t = BGP_DEFAULT_KEEPALIVE.
Proof.
  intros Hm Hn Hlc Hrun id t Hfound.
  destruct (init_fresh m Hm Hn Hlc) as (st'' & t'' & Hrun' & _ & _ & Hat).
  rewrite Hrun in Hrun'. injection Hrun' as <- <-.
  apply lookup_found in Hfound.
  destruct Hfound as (_ & Hinit & j & _ & <-).
  rewrite Hat in *.
  destruct (j =? 0)%nat; [split; reflexivity |].
  destruct (j <=? handled m)%nat; [split; reflexivity | discriminate Hinit].
Qed.

(** X18 (every listed VRF gets its timers when the count includes the
    default VRF).  Starting from the table of program start, if the VRF
    manager reports at least as many VRFs as its list holds, the entries
    of all listed VRFs are initialised and the counter equals the length
    of the list; a hold-time query for the default VRF or for the id of
    any listed VRF answers the negotiation of the default 180 seconds
    with the remote proposal, and a keepalive query answers 60. *)
Theorem init_covers_the_list :
  forall (m : vrf_manager) (remote : Z) (j : nat),
    manager_ok m ->
    1 <= list_count m <= num_vrfs m ->
    (j < Z.to_nat (list_count m))%nat ->
    let st' := snd (fst (bgp_timers_init m zero_timers)) in
    let id := if (j =? 0)%nat then 0
              else info_vrf_id (info_at j (vrf_list m)) in
    vrf_timer_count st' = list_count m
    /\ initialized (timer_at j (vrf_timers st')) = true
    /\ vrf_id (timer_at j (vrf_timers st')) = id
    /\ fst (bgp_timers_get_hold_time id remote st')
       = negotiated BGP_DEFAULT_HOLD_TIME remote
    /\ fst (bgp_timers_get_keepalive id st') = BGP_DEFAULT_KEEPALIVE.
Proof.
  intros m remote j Hm Hcount Hj st' id. subst st'.
  assert (Hn : 0 < num_vrfs m) by lia.
  assert (Hlc : 0 <= list_count m) by lia.
  destruct (init_fresh m Hm Hn Hlc) as (st' & t & Hrun & Hok & Hc & Hat).
  rewrite Hrun. cbn [fst snd].
  assert (Hh : handled m = (Z.to_nat (list_count m) - 1)%nat)
    by (unfold handled; lia).
  assert (Hentry : initialized (timer_at j (vrf_timers st')) = true
                   /\ vrf_id (timer_at j (vrf_timers st')) = id).
  { rewrite Hat. subst id.
    destruct (Nat.eqb_spec j 0); [split; reflexivity |].
    destruct (Nat.leb_spec j (handled m)); [| lia].
    split; reflexivity. }
  destruct Hentry as [Hinit Hid].
  assert (Hjt : (j < List.length (vrf_timers st'))%nat).
  { rewrite Hok. destruct Hm as [Hfit _].
    unfold MAX_VRF_INSTANCES in *. lia. }
  destruct (lookup_exists id (vrf_timers st') j Hjt Hid Hinit) as [u Hu].
  destruct (init_fresh_defaults m st' t Hm Hn Hlc Hrun id u Hu) as [Hhold Hkeep].
  rewrite (get_hold_time_found id remote st' u Hu).
  rewrite (get_keepalive_found id st' u Hu).
  rewrite Hhold, Hkeep. cbn [fst].
  split_all; try assumption; try reflexivity.
  rewrite Hc, Hh. lia.
Qed.

Lemma init_covers_the_list_witness :
  let m := mkManager 3 3
             (mkInfo 0 (list_byte_of_string "default")
              :: mkInfo 10 (list_byte_of_string "red")
              :: mkInfo 20 (list_byte_of_string "blue")
              :: repeat (mkInfo 0 []) 253) in
  let st' := snd (fst (bgp_timers_init m zero_timers)) in
  manager_ok m
  /\ fst (bgp_timers_get_hold_time 20 90 st') = 90
  /\ fst (bgp_timers_get_keepalive 20 st') = 60.
Proof.
  intros m st'.
  assert (Hm : manager_ok m) by (split; [simpl; lia | reflexivity]).
  assert (Hc : 1 <= list_count m <= num_vrfs m) by (simpl; lia).
  assert (Hj : (2 < Z.to_nat (list_count m))%nat) by (simpl; lia).
  destruct (init_covers_the_list m 90 2 Hm Hc Hj) as (_ & _ & _ & H4 & H5).
  split; [exact Hm |]. split; [exact H4 | exact H5].
Defined.

(** X19 (the last VRF is left out when the count excludes the default
    VRF).  Starting from the table of program start, if the VRF manager
    reports one VRF fewer than its list holds, the loop stops one entry
    short: the entry of the last listed VRF keeps its zero content and is
    not initialised, and the counter is one below the length of the list.
    For that VRF, provided its id is not 0 and no other listed VRF has
    it, the hold-time and keepalive queries answer 0 whatever the remote
    proposes, and [bgp_timers_set] fails with -1. *)
Theorem last_vrf_left_out :
  forall (m : vrf_manager) (remote hold keep : Z),
    manager_ok m ->
    2 <= list_count m ->
    num_vrfs m = list_count m - 1 ->
    let last := (Z.to_nat (list_count m) - 1)%nat in
    let id := info_vrf_id (info_at last (vrf_list m)) in
    id <> 0 ->
    (forall j, (1 <= j < last)%nat ->
               info_vrf_id (info_at j (vrf_list m)) <> id) ->
    let st' := snd (fst (bgp_timers_init m zero_timers)) in
    fst (fst (bgp_timers_init m zero_timers)) = 0
    /\ vrf_timer_count st' = list_count m - 1
    /\ timer_at last (vrf_timers st') = zero_timer
    /\ fst (bgp_timers_get_hold_time id remote st') = 0
    /\ fst (bgp_timers_get_keepalive id st') = 0
    /\ fst (fst (bgp_timers_set id hold keep st')) = -1.
Proof.
  intros m remote hold keep Hm Hlist Hcount last id Hid Huniq st'.
  subst st'.
  assert (Hn : 0 < num_vrfs m) by lia.
  assert (Hlc : 0 <= list_count m) by lia.
  destruct (init_fresh m Hm Hn Hlc) as (st' & t & Hrun & Hok & Hc & Hat).
  rewrite Hrun. cbn [fst snd].
  assert (Hh : handled m = (last - 1)%nat) by (unfold handled; lia).
  assert (Hentry : forall u, In u (vrf_timers st') ->
                             vrf_id u <> id
                             /\ (vrf_id u =? id) && initialized u = false).
  { intros u Hu. apply in_table_at in Hu. destruct Hu as (j & _ & <-).
    rewrite Hat.
    destruct (Nat.eqb_spec j 0).
    - cbn [init_default vrf_id initialized].
      destruct (Z.eqb_spec 0 id); [congruence | auto].
    - destruct (Nat.leb_spec j (handled m)).
      + assert (Hj : info_vrf_id (info_at j (vrf_list m)) <> id)
          by (apply Huniq; lia).
        unfold init_named. cbn [zero_timer configured vrf_id initialized].
        destruct (Z.eqb_spec (info_vrf_id (info_at j (vrf_list m))) id);
          [contradiction | auto].
      + cbn [zero_timer vrf_id initialized].
        destruct (Z.eqb_spec 0 id); [congruence | auto]. }
  assert (Hnone : lookup id (vrf_timers st') = None)
    by (apply find_all_false; intros u Hu; now apply Hentry).
  split; [reflexivity |].
  split; [rewrite Hc, Hh; lia |].
  split.
  - rewrite Hat.
    destruct (Nat.eqb_spec last 0); [lia |].
    destruct (Nat.leb_spec last (handled m)); [lia | reflexivity].
  - unfold bgp_timers_get_hold_time, bgp_timers_get_keepalive, bgp_timers_set.
    rewrite Hnone.
    rewrite (set_first_none id hold keep (vrf_timers st'))
      by (intros u Hu; now apply Hentry).
    split_all; try reflexivity.
    destruct (negb (hold =? BGP_HOLD_TIME_DISABLED)
              && (hold <? BGP_MIN_HOLD_TIME)); reflexivity.
Qed.

Lemma last_vrf_left_out_witness :
  let m := mkManager 2 3
             (mkInfo 0 (list_byte_of_string "default")
              :: mkInfo 10 (list_byte_of_string "red")
              :: mkInfo 20 (list_byte_of_string "blue")
              :: repeat (mkInfo 0 []) 253) in
  let st' := snd (fst (bgp_timers_init m zero_timers)) in
  manager_ok m
  /\ fst (bgp_timers_get_hold_time 10 90 st') = 90
  /\ fst (bgp_timers_get_hold_time 20 90 st') = 0
  /\ fst (fst (bgp_timers_set 20 30 10 st')) = -1.
Proof.
  intros m st'.
  assert (Hm : manager_ok m) by (split; [simpl; lia | reflexivity]).
  assert (Hlist : 2 <= list_count m) by (simpl; lia).
  assert (Hcount : num_vrfs m = list_count m - 1) by reflexivity.
  assert (Hid : info_vrf_id (info_at (Z.to_nat (list_count m) - 1)
                               (vrf_list m)) <> 0)
    by (vm_compute; discriminate).
  assert (Huniq : forall j, (1 <= j < Z.to_nat (list_count m) - 1)%nat ->
            info_vrf_id (info_at j (vrf_list m))
            <> info_vrf_id (info_at (Z.to_nat (list_count m) - 1)
                              (vrf_list m))).
  { intros j Hj. assert (j = 1%nat) by (simpl in Hj; lia). subst j.
    vm_compute. discriminate. }
  destruct (last_vrf_left_out m 90 30 10 Hm Hlist Hcount Hid Huniq)
    as (_ & _ & _ & H4 & _ & H6).
  split; [exact Hm |].
  split; [vm_compute; reflexivity |].
  split; [exact H4 | exact H6].
Defined.

Lemma set_first_found id hold keep tbl :
  forall j,
    (j < List.length tbl)%nat ->
    vrf_id (timer_at j tbl) = id ->
    (forall i, (i < j)%nat -> vrf_id (timer_at i tbl) <> id) ->
    set_first id hold keep tbl = Some (update j (set_entry hold keep) tbl).
Proof.
  unfold timer_at.
  induction tbl as [| t rest IH]; intros j Hj Hid Hfirst; simpl in Hj;
    [lia |].
  destruct j as [| j]; simpl in Hid |- *.
  - destruct (Z.eqb_spec (vrf_id t) id); [reflexivity | contradiction].
  - destruct (Z.eqb_spec (vrf_id t) id) as [E | _].
    + exfalso. apply (Hfirst O); [lia | exact E].
    + rewrite (IH j); [reflexivity | lia | exact Hid |].
      intros i Hi. apply (Hfirst (S i)). lia.
Qed.

(** X20 (a rejected setting changes nothing).  [bgp_timers_set] returns
    -1 and leaves the table and the counter as they were when the hold
    time is 1 or 2 seconds (below the minimum of 3, and not the 0 that
    disables the timer), and when no entry of the table carries the
    requested VRF id. *)
Theorem set_rejected :
  forall (id hold keep : Z) (st : timers_t),
    0 < hold < BGP_MIN_HOLD_TIME
    \/ (forall t, In t (vrf_timers st) -> vrf_id t <> id) ->
    fst (fst (bgp_timers_set id hold keep st)) = -1
    /\ snd (fst (bgp_timers_set id hold keep st)) = st.
Proof.
  intros id hold keep st Hbad. unfold bgp_timers_set.
  destruct (negb (hold =? BGP_HOLD_TIME_DISABLED)
            && (hold <? BGP_MIN_HOLD_TIME)) eqn:Hcheck;
    [split; reflexivity |].
  destruct Hbad as [Hlow | Hmiss].
  - exfalso. unfold BGP_HOLD_TIME_DISABLED, BGP_MIN_HOLD_TIME in *.
    destruct (Z.eqb_spec hold 0); [lia |].
    destruct (Z.ltb_spec hold 3); [discriminate Hcheck | lia].
  - rewrite (set_first_none id hold keep _ Hmiss). split; reflexivity.
Qed.

Lemma set_rejected_witness :
  fst (fst (bgp_timers_set 0 2 1 zero_timers)) = -1
  /\ snd (fst (bgp_timers_set 0 2 1 zero_timers)) = zero_timers.
Proof.
  assert (Hbad : 0 < 2 < BGP_MIN_HOLD_TIME
                 \/ (forall t, In t (vrf_timers zero_timers) -> vrf_id t <> 0))
    by (left; unfold BGP_MIN_HOLD_TIME; lia).
  exact (set_rejected 0 2 1 zero_timers Hbad).
Defined.

Lemma set_accepted id hold keep st j :
  hold = BGP_HOLD_TIME_DISABLED \/ BGP_MIN_HOLD_TIME <= hold ->
  (j < List.length (vrf_timers st))%nat ->
  vrf_id (timer_at j (vrf_timers st)) = id ->
  (forall i, (i < j)%nat -> vrf_id (timer_at i (vrf_timers st)) <> id) ->
  exists t,
    bgp_timers_set id hold keep st
    = (0, mkTimers (update j (set_entry hold keep) (vrf_timers st))
            (vrf_timer_count st), t).
Proof.
  intros Hhold Hj Hid Hfirst. unfold bgp_timers_set.
  assert (Hcheck : negb (hold =? BGP_HOLD_TIME_DISABLED)
                   && (hold <? BGP_MIN_HOLD_TIME) = false).
  { unfold BGP_HOLD_TIME_DISABLED, BGP_MIN_HOLD_TIME in *.
    destruct (Z.eqb_spec hold 0); [reflexivity |].
    destruct (Z.ltb_spec hold 3); [lia | reflexivity]. }
  rewrite Hcheck, (set_first_found id hold keep _ j Hj Hid Hfirst).
  eexists. reflexivity.
Qed.

(** X21 (what an accepted setting changes).  With a hold time of 0 or of
    at least 3 seconds, [bgp_timers_set] returns 0 as soon as some entry
    carries the requested VRF id.  The first such entry, whether it is
    initialised or not, takes the hold time and the keepalive and is
    marked configured; its id, name, connect-retry timer and initialised
    mark stay, every other entry stays, and so do the size of the table
    and the counter.  The keepalive is stored as given, without being
    compared with the hold time. *)
Theorem set_changes_first_match :
  forall (id hold keep : Z) (st : timers_t) (j : nat),
    hold = BGP_HOLD_TIME_DISABLED \/ BGP_MIN_HOLD_TIME <= hold ->
    (j < List.length (vrf_timers st))%nat ->
    vrf_id (timer_at j (vrf_timers st)) = id ->
    (forall i, (i < j)%nat -> vrf_id (timer_at i (vrf_timers st)) <> id) ->
    let r := bgp_timers_set id hold keep st in
    let st' := snd (fst r) in
    let old := timer_at j (vrf_timers st) in
    fst (fst r) = 0
    /\ timer_at j (vrf_timers st')
       = mkTimer (vrf_id old) (vrf_name old) hold keep (connect_retry old)
                 true (initialized old)
    /\ (forall i, i <> j ->
                  timer_at i (vrf_timers st') = timer_at i (vrf_timers st))
    /\ List.length (vrf_timers st') = List.length (vrf_timers st)
    /\ vrf_timer_count st' = vrf_timer_count st.
Proof.
  intros id hold keep st j Hhold Hj Hid Hfirst r st' old. subst r st' old.
  destruct (set_accepted id hold keep st j Hhold Hj Hid Hfirst) as [t ->].
  cbn [fst snd vrf_timers vrf_timer_count].
  split; [reflexivity |].
  split; [now rewrite timer_at_update_same |].
  split; [intros i Hi; apply timer_at_update_other; congruence |].
  split; [apply update_length | reflexivity].
Qed.

Lemma set_changes_first_match_witness :
  let r := bgp_timers_set 0 30 40 zero_timers in
  fst (fst r) = 0
  /\ hold_time (timer_at 0 (vrf_timers (snd (fst r)))) = 30
  /\ keepalive (timer_at 0 (vrf_timers (snd (fst r)))) = 40
  /\ initialized (timer_at 0 (vrf_timers (snd (fst r)))) = false.
Proof.
  intros r.
  assert (Hhold : 30 = BGP_HOLD_TIME_DISABLED \/ BGP_MIN_HOLD_TIME <= 30)
    by (right; unfold BGP_MIN_HOLD_TIME; lia).
  assert (Hj : (0 < List.length (vrf_timers zero_timers))%nat)
    by (vm_compute; lia).
  assert (Hfirst : forall i, (i < 0)%nat ->
            vrf_id (timer_at i (vrf_timers zero_timers)) <> 0) by lia.
  destruct (set_changes_first_match 0 30 40 zero_timers 0
              Hhold Hj eq_refl Hfirst) as (H1 & H2 & _).
  fold r in H1, H2.
  split; [exact H1 |]. rewrite H2. repeat split.
Defined.

Lemma lookup_first id tbl :
  forall j,
    (j < List.length tbl)%nat ->
    vrf_id (timer_at j tbl) = id ->
    initialized (timer_at j tbl) = true ->
    (forall i, (i < j)%nat -> vrf_id (timer_at i tbl) <> id) ->
    lookup id tbl = Some (timer_at j tbl).
Proof.
  unfold lookup, timer_at.
  induction tbl as [| t rest IH]; intros j Hj Hid Hinit Hfirst; simpl in Hj;
    [lia |].
  destruct j as [| j]; simpl in Hid, Hinit |- *.
  - destruct (Z.eqb_spec (vrf_id t) id); [| contradiction].
    rewrite Hinit. reflexivity.
  - destruct (Z.eqb_spec (vrf_id t) id) as [E | _].
    + exfalso. apply (Hfirst O); [lia | exact E].
    + cbn [andb]. apply IH; [lia | exact Hid | exact Hinit |].
      intros i Hi. apply (Hfirst (S i)). lia.
Qed.

(** X22 (a setting is what the queries answer).  When the first entry
    carrying a VRF id is initialised, an accepted [bgp_timers_set] for
    that id is what the getters report afterwards: the hold-time query
    answers the negotiation of the stored hold time with the remote
    proposal, and the keepalive query answers the stored keepalive, or a
    third of the hold time (rounded down) when the keepalive stored
    is 0. *)
Theorem set_then_get :
  forall (id hold keep remote : Z) (st : timers_t) (j : nat),
    hold = BGP_HOLD_TIME_DISABLED \/ BGP_MIN_HOLD_TIME <= hold ->
    (j < List.length (vrf_timers st))%nat ->
    vrf_id (timer_at j (vrf_timers st)) = id ->
    initialized (timer_at j (vrf_timers st)) = true ->
    (forall i, (i < j)%nat -> vrf_id (timer_at i (vrf_timers st)) <> id) ->
    let st' := snd (fst (bgp_timers_set id hold keep st)) in
    fst (bgp_timers_get_hold_time id remote st') = negotiated hold remote
    /\ fst (bgp_timers_get_keepalive id st')
       = (if keep >? 0 then keep else hold / 3).
Proof.
  intros id hold keep remote st j Hhold Hj Hid Hinit Hfirst st'. subst st'.
  destruct (set_accepted id hold keep st j Hhold Hj Hid Hfirst) as [t ->].
  cbn [fst snd].
  set (st' := mkTimers _ _).
  assert (Hat : timer_at j (vrf_timers st')
                = set_entry hold keep (timer_at j (vrf_timers st)))
    by (subst st'; cbn [vrf_timers]; now apply timer_at_update_same).
  assert (Hfound : lookup id (vrf_timers st')
                   = Some (timer_at j (vrf_timers st'))).
  { apply lookup_first.
    - subst st'. cbn [vrf_timers]. now rewrite update_length.
    - rewrite Hat. exact Hid.
    - rewrite Hat. exact Hinit.
    - intros i Hi. subst st'. cbn [vrf_timers].
      rewrite timer_at_update_other by lia. now apply Hfirst. }
  rewrite (get_hold_time_found id remote st' _ Hfound).
  rewrite (get_keepalive_found id st' _ Hfound).
  rewrite Hat. split; reflexivity.
Qed.

Lemma set_then_get_witness :
  let m := mkManager 3 3
             (mkInfo 0 (list_byte_of_string "default")
              :: mkInfo 10 (list_byte_of_string "red")
              :: mkInfo 20 (list_byte_of_string "blue")
              :: repeat (mkInfo 0 []) 253) in
  let st := snd (fst (bgp_timers_init m zero_timers)) in
  let st' := snd (fst (bgp_timers_set 20 30 0 st)) in
  fst (bgp_timers_get_hold_time 20 90 st') = 30
  /\ fst (bgp_timers_get_keepalive 20 st') = 10.
Proof.
  intros m st st'.
  assert (Hhold : 30 = BGP_HOLD_TIME_DISABLED \/ BGP_MIN_HOLD_TIME <= 30)
    by (right; unfold BGP_MIN_HOLD_TIME; lia).
  assert (Hj : (2 < List.length (vrf_timers st))%nat) by (vm_compute; lia).
  assert (Hid : vrf_id (timer_at 2 (vrf_timers st)) = 20)
    by (vm_compute; reflexivity).
  assert (Hinit : initialized (timer_at 2 (vrf_timers st)) = true)
    by (vm_compute; reflexivity).
  assert (Hfirst : forall i, (i < 2)%nat ->
            vrf_id (timer_at i (vrf_timers st)) <> 20).
  { intros i Hi.
    assert (Hi' : i = 0%nat \/ i = 1%nat) by lia.
    destruct Hi' as [-> | ->]; vm_compute; discriminate. }
  exact (set_then_get 20 30 0 90 st 2 Hhold Hj Hid Hinit Hfirst).
Defined.

(** X23 (the negotiated hold time).  The answer of
    [bgp_timers_get_hold_time] never exceeds the remote proposal.  It is
    0 when no initialised entry carries the VRF id; otherwise it is taken
    from the first such entry: 0 if that entry's hold time or the remote
    proposal is 0, else the smaller of the two. *)
Theorem hold_time_is_negotiated :
  forall (id remote : Z) (st : timers_t),
    0 <= remote ->
    let r := fst (bgp_timers_get_hold_time id remote st) in
    r <= remote
    /\ match lookup id (vrf_timers st) with
       | Some t =>
           vrf_id t = id /\ initialized t = true
           /\ r = negotiated (hold_time t) remote
           /\ (r = 0 \/ (r = Z.min (hold_time t) remote
                         /\ hold_time t <> 0 /\ remote <> 0))
       | None => r = 0
       end.
Proof.
  intros id remote st Hremote r. subst r.
  destruct (lookup id (vrf_timers st)) as [t |] eqn:Hfound.
  - rewrite (get_hold_time_found id remote st t Hfound). cbn [fst].
    destruct (lookup_found id _ t Hfound) as (Hid & Hinit & _).
    unfold negotiated.
    destruct (Z.eqb_spec remote 0), (Z.eqb_spec (hold_time t) 0);
      cbn [orb]; split_all; auto; try lia; right; split_all; auto; lia.
  - unfold bgp_timers_get_hold_time. rewrite Hfound. cbn [fst].
    unfold BGP_HOLD_TIME_DISABLED. split; [lia | reflexivity].
Qed.

Lemma hold_time_is_negotiated_witness :
  let m := mkManager 2 2
             (mkInfo 0 (list_byte_of_string "default")
              :: mkInfo 10 (list_byte_of_string "red")
              :: repeat (mkInfo 0 []) 254) in
  let st := snd (fst (bgp_timers_init m zero_timers)) in
  fst (bgp_timers_get_hold_time 10 240 st) <= 240
  /\ fst (bgp_timers_get_hold_time 10 240 st) = 180.
Proof.
  intros m st.
  assert (Hremote : 0 <= 240) by lia.
  destruct (hold_time_is_negotiated 10 240 st Hremote) as [H _].
  split; [exact H | vm_compute; reflexivity].
Defined.

(** X24 (a setting and a later initialisation).  When an accepted
    [bgp_timers_set] is followed by [bgp_timers_init], the entry that
    took the setting keeps its hold time and keepalive if it is the
    entry of a named VRF the initialisation handles, or an entry beyond
    those; if it is entry 0, the default VRF, the initialisation puts
    the default 180 and 60 seconds back although the entry is marked
    configured. *)
Theorem init_after_set :
  forall (m : vrf_manager) (id hold keep : Z) (st : timers_t) (j : nat),
    table_ok st -> manager_ok m -> 0 < num_vrfs m -> 0 <= list_count m ->
    hold = BGP_HOLD_TIME_DISABLED \/ BGP_MIN_HOLD_TIME <= hold ->
    (j < MAX_VRF_INSTANCES)%nat ->
    vrf_id (timer_at j (vrf_timers st)) = id ->
    (forall i, (i < j)%nat -> vrf_id (timer_at i (vrf_timers st)) <> id) ->
    let st1 := snd (fst (bgp_timers_set id hold keep st)) in
    let st2 := snd (fst (bgp_timers_init m st1)) in
    let e := timer_at j (vrf_timers st2) in
    configured e = true
    /\ if (j =? 0)%nat
       then hold_time e = BGP_DEFAULT_HOLD_TIME
            /\ keepalive e = BGP_DEFAULT_KEEPALIVE
       else hold_time e = hold /\ keepalive e = keep.
Proof.
  intros m id hold keep st j Hst Hm Hn Hlc Hhold Hj Hid Hfirst st1 st2 e.
  subst e st2 st1.
  assert (Hj' : (j < List.length (vrf_timers st))%nat) by now rewrite Hst.
  destruct (set_accepted id hold keep st j Hhold Hj' Hid Hfirst) as [t ->].
  cbn [fst snd].
  set (st1 := mkTimers _ _).
  assert (Hst1 : table_ok st1)
    by (unfold table_ok; subst st1; cbn [vrf_timers];
        now rewrite update_length).
  assert (Hat1 : timer_at j (vrf_timers st1)
                 = set_entry hold keep (timer_at j (vrf_timers st)))
    by (subst st1; cbn [vrf_timers]; now apply timer_at_update_same).
  destruct (init_spec m st1 Hst1 Hm Hn Hlc) as (st2 & t2 & -> & _ & _ & Hat).
  cbn [fst snd]. rewrite Hat.
  destruct (Nat.eqb_spec j 0) as [-> | Hne].
  - rewrite Hat1. repeat split.
  - destruct (j <=? handled m)%nat; rewrite Hat1; repeat split.
Qed.

Lemma init_after_set_witness :
  let m := mkManager 2 2
             (mkInfo 0 (list_byte_of_string "default")
              :: mkInfo 10 (list_byte_of_string "red")
              :: repeat (mkInfo 0 []) 254) in
  let st := snd (fst (bgp_timers_init m zero_timers)) in
  let named := snd (fst (bgp_timers_init m
                           (snd (fst (bgp_timers_set 10 30 10 st))))) in
  let default := snd (fst (bgp_timers_init m
                             (snd (fst (bgp_timers_set 0 30 10 st))))) in
  hold_time (timer_at 1 (vrf_timers named)) = 30
  /\ hold_time (timer_at 0 (vrf_timers default)) = BGP_DEFAULT_HOLD_TIME.
Proof.
  intros m st named default.
  assert (Hst : table_ok st) by (vm_compute; reflexivity).
  assert (Hm : manager_ok m) by (split; [simpl; lia | reflexivity]).
  assert (Hn : 0 < num_vrfs m) by reflexivity.
  assert (Hlc : 0 <= list_count m) by (simpl; lia).
  assert (Hhold : 30 = BGP_HOLD_TIME_DISABLED \/ BGP_MIN_HOLD_TIME <= 30)
    by (right; unfold BGP_MIN_HOLD_TIME; lia).
  assert (H1 : (1 < MAX_VRF_INSTANCES)%nat) by (unfold MAX_VRF_INSTANCES; lia).
  assert (H0 : (0 < MAX_VRF_INSTANCES)%nat) by (unfold MAX_VRF_INSTANCES; lia).
  assert (Hid1 : vrf_id (timer_at 1 (vrf_timers st)) = 10)
    by (vm_compute; reflexivity).
  assert (Hid0 : vrf_id (timer_at 0 (vrf_timers st)) = 0)
    by (vm_compute; reflexivity).
  assert (Hf1 : forall i, (i < 1)%nat ->
            vrf_id (timer_at i (vrf_timers st)) <> 10).
  { intros i Hi. assert (i = 0%nat) by lia. subst i.
    vm_compute. discriminate. }
  assert (Hf0 : forall i, (i < 0)%nat ->
            vrf_id (timer_at i (vrf_timers st)) <> 0) by lia.
  destruct (init_after_set m 10 30 10 st 1 Hst Hm Hn Hlc Hhold H1 Hid1 Hf1)
    as [_ [Hn1 _]].
  destruct (init_after_set m 0 30 10 st 0 Hst Hm Hn Hlc Hhold H0 Hid0 Hf0)
    as [_ [Hd1 _]].
  exact (conj Hn1 Hd1).
Defined.

Lemma dumped_entries (f : nat -> option vrf_timer_config_t) l :
  dumped (map (fun i => EntryLine i (f i)) l) = map (fun i => (i, f i)) l.
Proof. induction l as [| i l IH]; simpl; [reflexivity | now rewrite IH]. Qed.

Lemma dumped_app a b : dumped (a ++ b) = dumped a ++ dumped b.
Proof.
  induction a as [| [l | i t] a IH]; simpl; [reflexivity | exact IH |].
  now rewrite IH.
Qed.

(** X25 (the dump reads one entry more than the counter).  With a
    counter that is not negative, [bgp_timers_dump] reads the entries at
    the indices 0 to [vrf_timer_count], both included, in order, changes
    nothing, and frames them with three other lines.  An index below 256
    shows the entry of the table; when the counter has reached 256 (a
    full table) the last index read is 256, outside the array. *)
Theorem dump_reads_count_plus_one :
  forall (reported : Z) (st : timers_t),
    table_ok st ->
    0 <= vrf_timer_count st ->
    let d := bgp_timers_dump reported st in
    dumped d
    = map (fun i => (i, if (i <? MAX_VRF_INSTANCES)%nat
                        then Some (timer_at i (vrf_timers st)) else None))
          (seq 0 (Z.to_nat (vrf_timer_count st) + 1))
    /\ List.length d = (Z.to_nat (vrf_timer_count st) + 4)%nat.
Proof.
  intros reported st Hst Hcount d. subst d. unfold bgp_timers_dump.
  replace (Z.to_nat (vrf_timer_count st + 1))
    with (Z.to_nat (vrf_timer_count st) + 1)%nat by lia.
  split.
  - rewrite !dumped_app, dumped_entries. cbn [dumped app].
    rewrite app_nil_r. apply map_ext_in. intros i _. f_equal.
    destruct (Nat.ltb_spec i MAX_VRF_INSTANCES) as [Hin | Hout].
    + unfold timer_at. apply nth_error_nth'. now rewrite Hst.
    + apply nth_error_None. now rewrite Hst.
  - rewrite !length_app, length_map, length_seq. simpl. lia.
Qed.

Lemma dump_reads_count_plus_one_witness :
  let m := mkManager 256 256 (repeat (mkInfo 9 []) 256) in
  let st := snd (fst (bgp_timers_init m zero_timers)) in
  vrf_timer_count st = 256
  /\ In (256%nat, None) (dumped (bgp_timers_dump 256 st)).
Proof.
  intros m st.
  assert (Hst : table_ok st) by (vm_compute; reflexivity).
  assert (Hcount : vrf_timer_count st = 256) by (vm_compute; reflexivity).
  assert (Hpos : 0 <= vrf_timer_count st) by (rewrite Hcount; lia).
  destruct (dump_reads_count_plus_one 256 st Hst Hpos) as [Hd _].
  split; [exact Hcount |].
  rewrite Hd, Hcount.
  apply in_map_iff. exists 256%nat. split; [reflexivity |].
  apply in_seq. simpl. lia.
Defined.

End BgpTimersFacts.
